(** * twitchwh: a shallow embedding of the EventSub webhook client

    The development follows the Go sources file by file:
    - [verify.go]: [generateHmac], [verifyHmac], [isMessageTooOld];
    - [client.go]: the [HandledEventsChecker] interface, its default
      implementation and the [Client] structure;
    - [handler.go]: the inbound [Handler];
    - the subscriptions file: [AddSubscription], [RemoveSubscription],
      [RemoveSubscriptionByType], [fetchSubscriptions] and the wrappers.

    Go strings are byte strings and are modelled by [string]; machine
    integers are modelled by [Z] with their wrap-around or saturation
    written out. *)

From Stdlib Require Import ZArith String Ascii List Bool Lia.
From stdpp Require Import base option list strings pretty gmap.
Import ListNotations.

Local Open Scope Z_scope.

(** ** crypto/sha256 and crypto/hmac

    [generateHmac] calls the Go standard library. The library functions are
    written out here after FIPS 180-4 and RFC 2104 so that the model runs on
    concrete requests. 32-bit words are [Z] values reduced modulo [2^32]. *)

Module SHA256.

Definition wrap32 (x : Z) : Z := x mod 4294967296.

Definition add32 (x y : Z) : Z := wrap32 (x + y).

Definition rotr (n x : Z) : Z :=
  Z.lor (Z.shiftr x n) (wrap32 (Z.shiftl x (32 - n))).

Definition not32 (x : Z) : Z := 4294967295 - x.

Definition Ch (x y z : Z) : Z := Z.lxor (Z.land x y) (Z.land (not32 x) z).

Definition Maj (x y z : Z) : Z :=
  Z.lxor (Z.lxor (Z.land x y) (Z.land x z)) (Z.land y z).

Definition bsig0 (x : Z) : Z := Z.lxor (Z.lxor (rotr 2 x) (rotr 13 x)) (rotr 22 x).

Definition bsig1 (x : Z) : Z := Z.lxor (Z.lxor (rotr 6 x) (rotr 11 x)) (rotr 25 x).

Definition ssig0 (x : Z) : Z := Z.lxor (Z.lxor (rotr 7 x) (rotr 18 x)) (Z.shiftr x 3).

Definition ssig1 (x : Z) : Z := Z.lxor (Z.lxor (rotr 17 x) (rotr 19 x)) (Z.shiftr x 10).

(** The round constants: the first 32 bits of the fractional parts of the
    cube roots of the first 64 primes (see [K_from_primes] below). *)
Definition K : list Z :=
  [
    1116352408; 1899447441; 3049323471; 3921009573; 961987163; 1508970993;
    2453635748; 2870763221; 3624381080; 310598401; 607225278; 1426881987;
    1925078388; 2162078206; 2614888103; 3248222580; 3835390401; 4022224774;
    264347078; 604807628; 770255983; 1249150122; 1555081692; 1996064986;
    2554220882; 2821834349; 2952996808; 3210313671; 3336571891; 3584528711;
    113926993; 338241895; 666307205; 773529912; 1294757372; 1396182291;
    1695183700; 1986661051; 2177026350; 2456956037; 2730485921; 2820302411;
    3259730800; 3345764771; 3516065817; 3600352804; 4094571909; 275423344;
    430227734; 506948616; 659060556; 883997877; 958139571; 1322822218;
    1537002063; 1747873779; 1955562222; 2024104815; 2227730452; 2361852424;
    2428436474; 2756734187; 3204031479; 3329325298 ].

(** The eight working variables a..h, also the running digest. *)
Record digest := Digest {
  da : Z; db : Z; dc : Z; dd : Z; de : Z; df : Z; dg : Z; dh : Z
}.

(** The initial digest: the first 32 bits of the fractional parts of the
    square roots of the first 8 primes. *)
Definition init : digest :=
  Digest 1779033703 3144134277 1013904242 2773480762
         1359893119 2600822924 528734635 1541459225.

(** Integer cube root by bisection, to check the constants. *)
Fixpoint cbrt_search (n : nat) (lo hi x : Z) : Z :=
  match n with
  | O => lo
  | S n' =>
      let mid := (lo + hi + 1) / 2 in
      if mid * mid * mid <=? x then cbrt_search n' mid hi x
      else cbrt_search n' lo (mid - 1) x
  end.

Definition cbrt_frac32 (p : Z) : Z :=
  wrap32 (cbrt_search 40 0 (2 ^ 35) (p * 2 ^ 96)).

Definition sqrt_frac32 (p : Z) : Z := wrap32 (Z.sqrt (p * 2 ^ 64)).

Definition primes64 : list Z :=
  [ 2; 3; 5; 7; 11; 13; 17; 19; 23; 29; 31; 37; 41; 43; 47; 53; 59; 61; 67; 71;
    73; 79; 83; 89; 97; 101; 103; 107; 109; 113; 127; 131; 137; 139; 149; 151;
    157; 163; 167; 173; 179; 181; 191; 193; 197; 199; 211; 223; 227; 229; 233;
    239; 241; 251; 257; 263; 269; 271; 277; 281; 283; 293; 307; 311 ].

(** Big-endian packing of bytes into 32-bit words. *)
Fixpoint words_of_bytes (bs : list Z) : list Z :=
  match bs with
  | b0 :: b1 :: b2 :: b3 :: rest =>
      (((b0 * 256 + b1) * 256 + b2) * 256 + b3) :: words_of_bytes rest
  | _ => []
  end.

Definition bytes_of_word (w : Z) : list Z :=
  [ Z.shiftr w 24 mod 256; Z.shiftr w 16 mod 256; Z.shiftr w 8 mod 256; w mod 256 ].

(** The message schedule is extended word by word; [sched] holds the words
    computed so far, newest first. *)
Fixpoint extend (n : nat) (sched : list Z) : list Z :=
  match n with
  | O => sched
  | S n' =>
      let w := add32 (add32 (ssig1 (nth 1 sched 0)) (nth 6 sched 0))
                     (add32 (ssig0 (nth 14 sched 0)) (nth 15 sched 0)) in
      extend n' (w :: sched)
  end.

Definition schedule (block : list Z) : list Z :=
  rev (extend 48 (rev (words_of_bytes block))).

Definition round (s : digest) (kw : Z * Z) : digest :=
  let t1 := add32 (add32 (add32 (dh s) (bsig1 (de s)))
                         (add32 (Ch (de s) (df s) (dg s)) (fst kw))) (snd kw) in
  let t2 := add32 (bsig0 (da s)) (Maj (da s) (db s) (dc s)) in
  Digest (add32 t1 t2) (da s) (db s) (dc s) (add32 (dd s) t1) (de s) (df s) (dg s).

Definition compress (h : digest) (block : list Z) : digest :=
  let s := fold_left round (combine K (schedule block)) h in
  Digest (add32 (da h) (da s)) (add32 (db h) (db s))
         (add32 (dc h) (dc s)) (add32 (dd h) (dd s))
         (add32 (de h) (de s)) (add32 (df h) (df s))
         (add32 (dg h) (dg s)) (add32 (dh h) (dh s)).

(** Padding: a 1 bit, zeros up to 56 modulo 64, the bit length on 8 bytes. *)
Definition pad (msg : list Z) : list Z :=
  let len := Z.of_nat (length msg) in
  let zeros := Z.to_nat ((55 - len) mod 64) in
  msg ++ [128] ++ repeat 0 zeros
      ++ bytes_of_word (Z.shiftr (len * 8) 32 mod 4294967296)
      ++ bytes_of_word ((len * 8) mod 4294967296).

Fixpoint blocks (n : nat) (bs : list Z) : list (list Z) :=
  match n with
  | O => []
  | S n' => firstn 64 bs :: blocks n' (skipn 64 bs)
  end.

Definition sum (msg : list Z) : list Z :=
  let p := pad msg in
  let d := fold_left compress (blocks (Nat.div (length p) 64) p) init in
  flat_map bytes_of_word
    [da d; db d; dc d; dd d; de d; df d; dg d; dh d].

End SHA256.

Module HMAC.

Definition block_size : nat := 64.

(** [hmac.New]: a key longer than the block is hashed first, then the key
    is padded with zero bytes to the block size. *)
Definition prepare_key (key : list Z) : list Z :=
  let k := if (Nat.ltb block_size (length key)) then SHA256.sum key else key in
  k ++ repeat 0 (block_size - length k)%nat.

Definition sum (key msg : list Z) : list Z :=
  let k := prepare_key key in
  let ipad := map (Z.lxor 0x36) k in
  let opad := map (Z.lxor 0x5c) k in
  SHA256.sum (opad ++ SHA256.sum (ipad ++ msg)).

End HMAC.

(** ** Conversions between Go strings and byte slices *)

Definition bytes_of_string (s : string) : list Z :=
  map (fun c => Z.of_N (N_of_ascii c)) (list_ascii_of_string s).

Definition hex_digit (n : Z) : ascii :=
  ascii_of_N (Z.to_N (if n <? 10 then 48 + n else 87 + n)).

(** [hex.EncodeToString]: two lowercase hexadecimal digits per byte. *)
Fixpoint hex_EncodeToString (bs : list Z) : string :=
  match bs with
  | [] => EmptyString
  | b :: rest =>
      String (hex_digit (b / 16)) (String (hex_digit (b mod 16)) (hex_EncodeToString rest))
  end.

(** ** verify.go *)

Definition generateHmac (secret message : string) : string :=
  let signature := HMAC.sum (bytes_of_string secret) (bytes_of_string message) in
  hex_EncodeToString signature.

(** [hmac.Equal] compares the two byte slices in constant time; its result
    is their equality. *)
Definition verifyHmac (hmac1 hmac2 : string) : bool := String.eqb hmac1 hmac2.


(** ** The data model (subscriptions file) *)

(** Errors produced by the Go standard library (encoding/json, net/http,
    io); only their message matters here. *)
Definition LibError := string.

(** The dynamic value held by a Go [any]. JSON numbers decode to float64,
    kept as its IEEE 754 bit pattern; JSON objects and arrays decode to a
    map and a slice, whose dynamic types are not comparable. *)
Inductive any :=
| any_nil
| any_string (s : string)
| any_int (n : Z)  (* a Go int *)
| any_float64 (bits : Z)
| any_bool (b : bool)
| any_map (raw : string)
| any_slice (raw : string).

Definition float64_isNaN (bits : Z) : bool :=
  (Z.land (Z.shiftr bits 52) 0x7ff =? 0x7ff) && negb (Z.land bits 0xfffffffffffff =? 0).

Definition float64_eq (x y : Z) : bool :=
  if float64_isNaN x || float64_isNaN y then false
  else if (Z.land x 0x7fffffffffffffff =? 0) && (Z.land y 0x7fffffffffffffff =? 0) then true
  else x =? y.

(** Go's [==] on interface values: different dynamic types are unequal, and
    identical dynamic types that are not comparable make the comparison
    panic ([None]). *)
Definition any_eq (x y : any) : option bool :=
  match x, y with
  | any_nil, any_nil => Some true
  | any_string s, any_string t => Some (String.eqb s t)
  | any_int n, any_int m => Some (n =? m)
  | any_float64 a, any_float64 b => Some (float64_eq a b)
  | any_bool a, any_bool b => Some (Bool.eqb a b)
  | any_map _, any_map _ => None
  | any_slice _, any_slice _ => None
  | _, _ => Some false
  end.

Record Condition := {
  BroadcasterUserID : string;
  ModeratorUserID : string;
  UserID : string;
  FromBroadcasterUserID : string;
  ToBroadcasterUserID : string;
  RewardID : any;
  ClientID : string;
  ExtensionClientID : string;
  ConduitID : string;
  OrganizationID : string;
  CategoryID : string;
  CampaignID : string
}.

(** Go's [==] on two [Condition] values: the fields are compared in source
    order and the comparison stops at the first pair that differs. *)
Definition Condition_eq (a b : Condition) : option bool :=
  if negb (String.eqb (BroadcasterUserID a) (BroadcasterUserID b)) then Some false
  else if negb (String.eqb (ModeratorUserID a) (ModeratorUserID b)) then Some false
  else if negb (String.eqb (UserID a) (UserID b)) then Some false
  else if negb (String.eqb (FromBroadcasterUserID a) (FromBroadcasterUserID b)) then Some false
  else if negb (String.eqb (ToBroadcasterUserID a) (ToBroadcasterUserID b)) then Some false
  else match any_eq (RewardID a) (RewardID b) with
  | None => None
  | Some false => Some false
  | Some true =>
      Some (String.eqb (ClientID a) (ClientID b)
            && String.eqb (ExtensionClientID a) (ExtensionClientID b)
            && String.eqb (ConduitID a) (ConduitID b)
            && String.eqb (OrganizationID a) (OrganizationID b)
            && String.eqb (CategoryID a) (CategoryID b)
            && String.eqb (CampaignID a) (CampaignID b))
  end.

Record SubscriptionTransport := {
  TransportMethod : string;
  TransportCallback : string
}.

Record Subscription := {
  ID : string;
  Status : string;
  Type_ : string;
  Version : string;
  Cost : Z;
  Condition_ : Condition;
  Transport : SubscriptionTransport;
  CreatedAt : Z
}.

Record transport := {
  Method : string;
  Callback : string;
  Secret : string
}.

Record subscriptionRequest := {
  req_Type : string;
  req_Version : string;
  req_Condition : Condition;
  req_Transport : transport
}.

(** The error types of the package, as the sources construct them. *)
Inductive Error :=
| UnauthorizedError
| DuplicateSubscriptionError (condition : Condition) (type : string)
| SubscriptionNotFoundError
| VerificationTimeoutError (subscription : Subscription)
| UnhandledStatusError (status : Z) (body : string)
| InternalError (msg : string) (cause : option LibError)
| OtherError (msg : string).

(** [errors.As(err, &uaErr)] with [uaErr] of type [*UnauthorizedError]. The
    causes wrapped by [InternalError] come from the standard library. *)
Definition errors_As_Unauthorized (err : Error) : bool :=
  match err with
  | UnauthorizedError => true
  | _ => false
  end.

(** ** client.go *)

Class HandledEventsChecker (C : Type) := {
  IsHandled : C -> string -> bool;
  MarkHandled : C -> string -> C
}.

(** The read/write lock of the Go structure serialises the two methods;
    each of them is one atomic step here. *)
Record DefaultHandledEventsChecker := {
  handledEvents : list string
}.

Definition NewDefaultHandledEventsChecker : DefaultHandledEventsChecker :=
  {| handledEvents := [] |}.

(** [slices.Contains]. *)
Definition slices_Contains (l : list string) (x : string) : bool :=
  existsb (String.eqb x) l.

#[export] Instance DefaultChecker : HandledEventsChecker DefaultHandledEventsChecker := {
  IsHandled d messageID := slices_Contains (handledEvents d) messageID;
  MarkHandled d messageID := {| handledEvents := handledEvents d ++ [messageID] |}
}.

(** User functions (event handlers, the revocation callback) are opaque Go
    closures; the model names them by a label. *)
Definition callback := string.

Record Client (C : Type) := {
  clientID : string;
  clientSecret : string;
  token : string;
  webhookSecret : string;
  webhookURL : string;
  debug : bool;
  handledEventsChecker : C;
  OnRevocation : option callback;
  handlers : gmap string callback
}.

Arguments clientID {C} _.
Arguments clientSecret {C} _.
Arguments token {C} _.
Arguments webhookSecret {C} _.
Arguments webhookURL {C} _.
Arguments debug {C} _.
Arguments handledEventsChecker {C} _.
Arguments OnRevocation {C} _.
Arguments handlers {C} _.

Definition set_token {C} (c : Client C) (t : string) : Client C :=
  {| clientID := clientID c; clientSecret := clientSecret c; token := t;
     webhookSecret := webhookSecret c; webhookURL := webhookURL c;
     debug := debug c; handledEventsChecker := handledEventsChecker c;
     OnRevocation := OnRevocation c; handlers := handlers c |}.

Definition set_handledEventsChecker {C} (c : Client C) (d : C) : Client C :=
  {| clientID := clientID c; clientSecret := clientSecret c; token := token c;
     webhookSecret := webhookSecret c; webhookURL := webhookURL c;
     debug := debug c; handledEventsChecker := d;
     OnRevocation := OnRevocation c; handlers := handlers c |}.

(** [On]: assigns a handler to an event type. *)
Definition On {C} (c : Client C) (event : string) (handler : callback) : Client C :=
  {| clientID := clientID c; clientSecret := clientSecret c; token := token c;
     webhookSecret := webhookSecret c; webhookURL := webhookURL c;
     debug := debug c; handledEventsChecker := handledEventsChecker c;
     OnRevocation := OnRevocation c; handlers := <[event := handler]> (handlers c) |}.

(** Modelled from the spec: the accessor [GetWebhookSecret], called by
    [Handler] and declared outside the files at hand, returns the configured
    webhook shared secret. *)
Definition GetWebhookSecret {C} (c : Client C) : string := webhookSecret c.

(** ** verify.go, continued: time *)

(** Instants are nanoseconds since the Unix epoch; a [time.Duration] is a
    signed 64-bit count of nanoseconds and [Time.Sub] saturates. *)
Definition minDuration : Z := - 2 ^ 63.
Definition maxDuration : Z := 2 ^ 63 - 1.
Definition Nanosecond : Z := 1.
Definition Second : Z := 1000000000 * Nanosecond.
Definition Minute : Z := 60 * Second.

Definition Time_Sub (t u : Z) : Z :=
  let d := t - u in
  if d <? minDuration then minDuration
  else if maxDuration <? d then maxDuration
  else d.

(** [time.Since(t)] is [time.Now().Sub(t)]; the clock reading is an input. *)
Definition time_Since (now t : Z) : Z := Time_Sub now t.

(** The pure functions of the Go standard library that the package calls on
    data: they are parameters of the model. *)
Record GoLib := {
  (** [time.Parse(time.RFC3339, s)]: the instant, or an error. *)
  time_Parse_RFC3339 : string -> option Z;
  (** [json.Unmarshal] into a [webhookPayload]:
      challenge, subscription and raw event. *)
  json_Unmarshal_payload : string -> LibError + (string * Subscription * string);
  (** [json.Marshal] of a [subscriptionRequest]. *)
  json_Marshal_request : subscriptionRequest -> LibError + string;
  (** [json.Unmarshal] of the creation response: the data array. *)
  json_Unmarshal_data : string -> LibError + list Subscription;
  (** [json.Unmarshal] of a list response: the data array and the cursor. *)
  json_Unmarshal_page : string -> LibError + (list Subscription * string);
  (** [http.NewRequest(method, url, body)] fails on a malformed method or
      URL. *)
  http_NewRequest_error : string -> string -> option LibError
}.

Definition isMessageTooOld (L : GoLib) (now : Z) (timestamp : string) : bool :=
  match time_Parse_RFC3339 L timestamp with
  | None => false
  | Some t => 10 * Minute <? time_Since now t
  end.

(** ** handler.go *)

Definition twitchMessageID : string := "Twitch-Eventsub-Message-Id".
Definition twitchMessageTimestamp : string := "Twitch-Eventsub-Message-Timestamp".
Definition twitchMessageSignature : string := "Twitch-Eventsub-Message-Signature".
Definition messageType : string := "Twitch-Eventsub-Message-Type".

Definition messageTypeNotification : string := "notification".
Definition messageTypeVerification : string := "webhook_callback_verification".
Definition messageTypeRevocation : string := "revocation".

Record webhookPayload := {
  Challenge : string;
  Subscription_ : Subscription;
  Event : string
}.

Definition payload_of (p : string * Subscription * string) : webhookPayload :=
  {| Challenge := fst (fst p); Subscription_ := snd (fst p); Event := snd p |}.

(** The inbound request as [Handler] reads it: the headers and the result
    of reading the body to its end. *)
Record HttpRequest := {
  Header : gmap string string;
  Body : LibError + string
}.

(** [r.Header.Get(key)]: the empty string when the header is absent. *)
Definition Header_Get (r : HttpRequest) (key : string) : string :=
  default EmptyString (Header r !! key).

(** What one run of [Handler] does to the outside, in program order. The
    [go] statements only start the work: the run does not wait for it. *)
Inductive Effect :=
| Log (msg : string)
| WriteHeader (code : Z)
| Write (body : string)
| GoHandler (handler : callback) (event : string)
| GoPublish (id : string)
| CallOnRevocation (cb : callback) (sub : Subscription).

Section Handler.

Context {C : Type} `{HandledEventsChecker C}.
Variable L : GoLib.

Definition Handler (c : Client C) (now : Z) (r : HttpRequest) : Client C * list Effect :=
  match Body r with
  | inl err =>
      (c, [Log ("Could not read request body: " +:+ err); WriteHeader 500])
  | inr body =>
      let hmacMessage :=
        Header_Get r twitchMessageID +:+ Header_Get r twitchMessageTimestamp +:+ body in
      let expectedSignature := "sha256=" +:+ generateHmac (GetWebhookSecret c) hmacMessage in
      if verifyHmac expectedSignature (Header_Get r twitchMessageSignature) then
        let valid := [Log "Received valid signature"] in
        if isMessageTooOld L now (Header_Get r twitchMessageTimestamp) then
          (c, valid ++ [WriteHeader 204])
        else
          match json_Unmarshal_payload L body with
          | inl err =>
              (c, valid ++ [Log ("Could not serialize webhook payload: " +:+ err);
                            WriteHeader 500])
          | inr p =>
              let payload := payload_of p in
              let message_type := Header_Get r messageType in
              if String.eqb message_type messageTypeNotification then
                let received :=
                  valid ++ [Log ("Received event for " +:+ Type_ (Subscription_ payload) +:+ " ")] in
                let messageID := Header_Get r twitchMessageID in
                if IsHandled (handledEventsChecker c) messageID then
                  (c, received ++ [Log "Got request for handled event, ignoring...";
                                   WriteHeader 204])
                else
                  let c' :=
                    set_handledEventsChecker c (MarkHandled (handledEventsChecker c) messageID) in
                  match handlers c !! Type_ (Subscription_ payload) with
                  | Some handler =>
                      (c', received ++ [GoHandler handler (Event payload); WriteHeader 204])
                  | None =>
                      (c', received ++ [Log ("No handler for event "
                                             +:+ Type_ (Subscription_ payload));
                                        WriteHeader 204])
                  end
              else if String.eqb message_type messageTypeVerification then
                (c, valid ++ [Log ("Got challenge request for " +:+ ID (Subscription_ payload));
                              GoPublish (ID (Subscription_ payload));
                              WriteHeader 200;
                              Write (Challenge payload)])
              else if String.eqb message_type messageTypeRevocation then
                let revoked :=
                  valid ++ [Log ("Twitch revoked subscription " +:+ ID (Subscription_ payload))] in
                match OnRevocation c with
                | Some cb =>
                    (c, revoked ++ [CallOnRevocation cb (Subscription_ payload); WriteHeader 204])
                | None => (c, revoked ++ [WriteHeader 204])
                end
              else (c, valid)
          end
      else (c, [WriteHeader 403])
  end.

End Handler.

(** *** Reading a run of [Handler] *)

(** The status code of the response: the first [WriteHeader]; a [Write]
    before any [WriteHeader], or no write at all, gives net/http's implicit
    200, reported here as [None]. *)
Fixpoint status_of (es : list Effect) : option Z :=
  match es with
  | [] => None
  | WriteHeader code :: _ => Some code
  | Write _ :: _ => None
  | _ :: rest => status_of rest
  end.

Definition is_user_call (e : Effect) : bool :=
  match e with
  | GoHandler _ _ | CallOnRevocation _ _ => true
  | _ => false
  end.

Definition is_handler_call (e : Effect) : bool :=
  match e with
  | GoHandler _ _ => true
  | _ => false
  end.

Definition is_publish (e : Effect) : bool :=
  match e with
  | GoPublish _ => true
  | _ => false
  end.

(** The request carries the signature that [Handler] recomputes from the
    client's secret, the message id, the timestamp and the body. *)
Definition validly_signed {C} (c : Client C) (r : HttpRequest) (body : string) : Prop :=
  Body r = inr body /\
  verifyHmac ("sha256=" +:+ generateHmac (GetWebhookSecret c)
                (Header_Get r twitchMessageID +:+ Header_Get r twitchMessageTimestamp +:+ body))
             (Header_Get r twitchMessageSignature) = true.

(** ** The outbound side: requests, the world, and the monad of a call *)

(** An outbound request as the package hands it to the HTTP client. Header
    names are kept as the sources write them. *)
Record Request := {
  method : string;
  url : string;
  header : list (string * string);
  body : option string
}.

(** A response: its status code and what reading its body to the end
    gives. *)
Record Response := {
  StatusCode : Z;
  ResponseBody : LibError + string
}.

(** One turn of the [select] of [addSubscription]: either a value arrives
    on the channel of verified subscriptions before the 10-second timer of
    this turn fires, or the timer fires. *)
Inductive SelectResult :=
| Received (id : string)
| TimerFired.

(** Everything outside the process, as a state [W] with one transition per
    kind of interaction. *)
Record World (W : Type) := {
  (** [c.httpClient.Do(request)]: a response or a transport error. *)
  httpClient_Do : Request -> W -> (LibError + Response) * W;
  (** The token endpoint behind [generateToken]. *)
  token_endpoint : string -> string -> W -> (Error + string) * W;
  (** The next turn of the [select] on [c.verifiedSubscriptions]. *)
  select_recv : W -> SelectResult * W;
  (** A send on the unbuffered channel [c.verifiedSubscriptions]: [true]
      when another receiver takes the value, [false] when none ever does. *)
  chan_send : string -> W -> bool * W
}.

Arguments httpClient_Do {W} _.
Arguments token_endpoint {W} _.
Arguments select_recv {W} _.
Arguments chan_send {W} _.

(** What a call does to the outside, in program order. *)
Inductive Action :=
| ALog (msg : string)
| AHttp (request : Request)
| AGenerateToken (clientID clientSecret : string)
| ASelect (result : SelectResult)
| ASend (id : string).

Record State (C W : Type) := {
  client : Client C;
  world : W;
  trace : list Action
}.

Arguments client {C W} _.
Arguments world {C W} _.
Arguments trace {C W} _.

(** How a call ends: it returns, it panics, it blocks for ever on a channel
    send, or the model runs out of loop turns. *)
Inductive Outcome (A : Type) :=
| Done (a : A)
| Panic (msg : string)
| Blocked
| OutOfFuel.

Arguments Done {A} _.
Arguments Panic {A} _.
Arguments Blocked {A}.
Arguments OutOfFuel {A}.

Definition M (C W A : Type) : Type := State C W -> Outcome (A * State C W).

#[export] Instance M_ret {C W} : MRet (M C W) :=
  fun A (a : A) s => Done (a, s).

#[export] Instance M_bind {C W} : MBind (M C W) :=
  fun A B (k : A -> M C W B) (m : M C W A) s =>
    match m s with
    | Done (a, s') => k a s'
    | Panic msg => Panic msg
    | Blocked => Blocked
    | OutOfFuel => OutOfFuel
    end.

Definition panic {C W A} (msg : string) : M C W A := fun _ => Panic msg.
Definition out_of_fuel {C W A} : M C W A := fun _ => OutOfFuel.

Definition emit {C W} (a : Action) : M C W unit :=
  fun s => Done (tt, {| client := client s; world := world s; trace := trace s ++ [a] |}).

(** [c.logger.Println] and [c.logger.Printf]. *)
Definition log {C W} (msg : string) : M C W unit := emit (ALog msg).

Definition get_client {C W} : M C W (Client C) := fun s => Done (client s, s).

(** [c.token = token]. *)
Definition assign_token {C W} (t : string) : M C W unit :=
  fun s => Done (tt, {| client := set_token (client s) t; world := world s; trace := trace s |}).

(** Runs one transition of the world. *)
Definition interact {C W A} (step : W -> A * W) : M C W A :=
  fun s =>
    let (a, w) := step (world s) in
    Done (a, {| client := client s; world := w; trace := trace s |}).

(** ** The subscriptions file *)

Section Subscriptions.

Context {C W : Type}.
Variable L : GoLib.
Variable E : World W.
(** The constant [helixURL], the base URL of the control plane, is declared
    outside the files at hand. *)
Variable helixURL : string.

Local Abbreviation M := (M C W).

(** Modelled from the spec: [generateToken(clientID, clientSecret)] is
    declared outside the files at hand; it asks the credential-issuance
    endpoint, an opaque token source, for a bearer token and returns the
    token or an error. *)
Definition generateToken (clientID clientSecret : string) : M (Error + string) :=
  emit (AGenerateToken clientID clientSecret);;
  interact (token_endpoint E clientID clientSecret).

Definition do_request (request : Request) : M (LibError + Response) :=
  emit (AHttp request);;
  interact (httpClient_Do E request).

(** Modelled from the spec: [genericRequest(method, url)] is declared
    outside the files at hand; it sends the method to the control-plane path
    [url] with the headers Client-ID and Authorization: Bearer <token>,
    reading the current token, and returns the response or the transport
    error. *)
Definition genericRequest (method url : string) : M (LibError + Response) :=
  c ← get_client;
  do_request {| method := method; url := helixURL +:+ url;
                header := [("Client-ID", clientID c);
                           ("Authorization", "Bearer " +:+ token c)];
                body := None |}.

(** The [for]/[select] loop that ends [addSubscription], one turn per unit
    of fuel. *)
Fixpoint awaitConfirmation (fuel : nat) (subscription : Subscription)
  : M (string * option Error) :=
  match fuel with
  | O => out_of_fuel
  | S fuel' =>
      r ← interact (select_recv E);
      emit (ASelect r);;
      match r with
      | Received id =>
          if String.eqb id (ID subscription) then
            log ("Subscription created: " +:+ ID subscription);;
            mret (id, None)
          else
            log "Subscription confirmation did not match ID, ignoring...";;
            taken ← interact (chan_send E id);
            if taken : bool then
              emit (ASend id);;
              awaitConfirmation fuel' subscription
            else (fun _ => Blocked)
      | TimerFired => mret (EmptyString, Some (VerificationTimeoutError subscription))
      end
  end.

Definition addSubscription (fuel : nat) (Type_ version : string) (condition : Condition)
  : M (string * option Error) :=
  c ← get_client;
  match json_Marshal_request L
          {| req_Type := Type_; req_Version := version; req_Condition := condition;
             req_Transport := {| Method := "webhook"; Callback := webhookURL c;
                                 Secret := webhookSecret c |} |} with
  | inl err =>
      mret (EmptyString, Some (InternalError "Could not serialize request body to JSON" (Some err)))
  | inr reqBody =>
  match http_NewRequest_error L "POST" (helixURL +:+ "/eventsub/subscriptions") with
  | Some err => mret (EmptyString, Some (InternalError "Could not create request" (Some err)))
  | None =>
  res ← do_request {| method := "POST"; url := helixURL +:+ "/eventsub/subscriptions";
                      header := [("Content-Type", "application/json");
                                 ("Client-ID", clientID c);
                                 ("Authorization", "Bearer " +:+ token c)];
                      body := Some reqBody |};
  match res with
  | inl err => mret (EmptyString, Some (InternalError "Could not send request" (Some err)))
  | inr res =>
  match ResponseBody res with
  | inl err => mret (EmptyString, Some (InternalError "Could not read response body" (Some err)))
  | inr body =>
  if StatusCode res =? 409 then
    mret (EmptyString, Some (DuplicateSubscriptionError condition Type_))
  else if StatusCode res =? 401 then
    mret (EmptyString, Some UnauthorizedError)
  else if negb (StatusCode res =? 202) then
    mret (EmptyString, Some (UnhandledStatusError (StatusCode res) body))
  else
  match json_Unmarshal_data L body with
  | inl err => mret (EmptyString, Some (InternalError "Could not parse response body" (Some err)))
  | inr Data =>
  if (length Data <? 1)%nat then
    mret (EmptyString,
          Some (InternalError "Helix did not return the subscription they were supposed to" None))
  else
  match Data !! 0%nat with
  | None => panic "index out of range [0] with length 0"
  | Some subscription => awaitConfirmation fuel subscription
  end end end end end end.

Definition AddSubscription (fuel : nat) (Type_ version : string) (condition : Condition)
  : M (string * option Error) :=
  '(id, err) ← addSubscription fuel Type_ version condition;
  match err with
  | Some e =>
      if errors_As_Unauthorized e then
        log "Token invalid, generating a new one";;
        c ← get_client;
        r ← generateToken (clientID c) (clientSecret c);
        match r with
        | inl err => mret (EmptyString, Some err)
        | inr token =>
            assign_token token;;
            addSubscription fuel Type_ version condition
        end
      else mret (id, None)
  | None => mret (id, None)
  end.

Definition removeSubscription (id : string) : M (option Error) :=
  let url := "/eventsub/subscriptions?id=" +:+ id in
  res ← genericRequest "DELETE" url;
  match res with
  | inl err => mret (Some (InternalError "Could not make request" (Some err)))
  | inr res =>
      if StatusCode res =? 204 then mret None
      else if StatusCode res =? 401 then mret (Some UnauthorizedError)
      else if StatusCode res =? 404 then mret (Some SubscriptionNotFoundError)
      else
        match ResponseBody res with
        | inl err => mret (Some (InternalError "Could not read response body" (Some err)))
        | inr body => mret (Some (UnhandledStatusError (StatusCode res) body))
        end
  end.

Definition RemoveSubscription (id : string) : M (option Error) :=
  err ← removeSubscription id;
  match err with
  | Some e =>
      if errors_As_Unauthorized e then
        log "Token invalid, generating a new one";;
        c ← get_client;
        r ← generateToken (clientID c) (clientSecret c);
        match r with
        | inl err => mret (Some err)
        | inr token =>
            assign_token token;;
            removeSubscription id
        end
      else mret err
  | None => mret err
  end.

(** A Go [int] is 64 bits wide on the supported platforms; its arithmetic
    wraps around. *)
Definition int_wrap (x : Z) : Z := (x + 2 ^ 63) mod 2 ^ 64 - 2 ^ 63.

(** The query string that one turn of the loop of [fetchSubscriptions]
    appends to the path. *)
Definition page_params (urlParams cursor : string) : string :=
  if negb (String.eqb cursor EmptyString) then
    if String.eqb urlParams EmptyString then urlParams +:+ "?after=" +:+ cursor
    else "&after=" +:+ cursor
  else EmptyString.

(** The loop of [fetchSubscriptions], one page per unit of fuel; [page],
    [cursor] and [subscriptions] are the variables of the Go function. *)
Fixpoint fetchPages (fuel : nat) (urlParams : string) (page : Z) (cursor : string)
    (subscriptions : list Subscription) : M (list Subscription * option Error) :=
  match fuel with
  | O => out_of_fuel
  | S fuel' =>
      log ("Fetching page " +:+ pretty page +:+ " of subscriptions");;
      let page := int_wrap (page + 1) in
      let params := page_params urlParams cursor in
      res ← genericRequest "GET" ("/eventsub/subscriptions" +:+ params);
      match res with
      | inl err => mret ([], Some (InternalError "Could not make request" (Some err)))
      | inr res =>
          (* the 401 branch either leaves the function or replaces [res] *)
          res ← (if StatusCode res =? 401 then
                   log "Token invalid, generating a new one";;
                   c ← get_client;
                   r ← generateToken (clientID c) (clientSecret c);
                   match r with
                   | inl err => mret (inl err)
                   | inr token =>
                       assign_token token;;
                       res ← genericRequest "GET" ("/eventsub/subscriptions" +:+ params);
                       match res with
                       | inl err =>
                           mret (inl (InternalError "Could not make request" (Some err)))
                       | inr res => mret (inr res)
                       end
                   end
                 else mret (inr res));
          match res with
          | inl err => mret ([], Some err)
          | inr res =>
              match ResponseBody res with
              | inl err =>
                  mret ([], Some (InternalError "Could not read response body" (Some err)))
              | inr body =>
                  if negb (StatusCode res =? 200) then
                    mret ([], Some (UnhandledStatusError (StatusCode res) body))
                  else
                    match json_Unmarshal_page L body with
                    | inl err =>
                        mret ([], Some (InternalError "Could not parse response body" (Some err)))
                    | inr (Data, Cursor) =>
                        let subscriptions := subscriptions ++ Data in
                        if String.eqb Cursor EmptyString then mret (subscriptions, None)
                        else fetchPages fuel' urlParams page Cursor subscriptions
                    end
              end
          end
      end
  end.

Definition fetchSubscriptions (fuel : nat) (urlParams : string)
  : M (list Subscription * option Error) :=
  fetchPages fuel urlParams 1 EmptyString [].

Definition GetSubscriptions (fuel : nat) : M (list Subscription * option Error) :=
  let urlParams := EmptyString in
  fetchSubscriptions fuel urlParams.

Definition GetSubscriptionsByType (fuel : nat) (Type_ : string)
  : M (list Subscription * option Error) :=
  let urlParams := "?type=" +:+ Type_ in
  fetchSubscriptions fuel urlParams.

Definition GetSubscriptionsByStatus (fuel : nat) (status : string)
  : M (list Subscription * option Error) :=
  let urlParams := "?status=" +:+ status in
  fetchSubscriptions fuel urlParams.

(** The [range] loop of [RemoveSubscriptionByType]. *)
Fixpoint removeMatching (condition : Condition) (subs : list Subscription)
  : M (option Error) :=
  match subs with
  | [] => mret None
  | sub :: rest =>
      match Condition_eq (Condition_ sub) condition with
      | None => panic "comparing uncomparable type"
      | Some true =>
          log ("Removing subscription " +:+ ID sub);;
          err ← RemoveSubscription (ID sub);
          match err with
          | Some e => mret (Some e)
          | None => removeMatching condition rest
          end
      | Some false => removeMatching condition rest
      end
  end.

Definition RemoveSubscriptionByType (fuel : nat) (Type_ : string) (condition : Condition)
  : M (option Error) :=
  '(subs, err) ← GetSubscriptionsByType fuel Type_;
  match err with
  | Some e => mret (Some e)
  | None => removeMatching condition subs
  end.

End Subscriptions.

(** *** Reading the trace of a call *)

Definition http_requests (t : list Action) : list Request :=
  omap (fun a => match a with AHttp r => Some r | _ => None end) t.

Definition token_generations (t : list Action) : list (string * string) :=
  omap (fun a => match a with AGenerateToken i s => Some (i, s) | _ => None end) t.

(** The trace without its log lines. *)
Definition interactions (t : list Action) : list Action :=
  List.filter (fun a => match a with ALog _ => false | _ => true end) t.

Definition is_delete (r : Request) : bool := String.eqb (method r) "DELETE".

(** The request that [removeSubscription] sends for [id] when the client
    is [c]. *)
Definition delete_request {C} (helixURL : string) (c : Client C) (id : string) : Request :=
  {| method := "DELETE";
     url := helixURL +:+ "/eventsub/subscriptions?id=" +:+ id;
     header := [("Client-ID", clientID c); ("Authorization", "Bearer " +:+ token c)];
     body := None |}.

(** The request that [addSubscription] sends with the serialized body
    [reqBody] when the client is [c]. *)
Definition create_request {C} (helixURL : string) (c : Client C) (reqBody : string) : Request :=
  {| method := "POST";
     url := helixURL +:+ "/eventsub/subscriptions";
     header := [("Content-Type", "application/json");
                ("Client-ID", clientID c);
                ("Authorization", "Bearer " +:+ token c)];
     body := Some reqBody |}.

(** What a delete call must return for a response, in the words of the
    specification: 204 is success, 404 the not-found error, 401 the
    unauthorized error, anything else an unhandled-status error that carries
    the status and the raw body. *)
Definition remove_outcome (res : Response) (err : option Error) : Prop :=
  (StatusCode res = 204 -> err = None) /\
  (StatusCode res = 404 -> err = Some SubscriptionNotFoundError) /\
  (StatusCode res = 401 -> err = Some UnauthorizedError) /\
  (StatusCode res <> 204 -> StatusCode res <> 404 -> StatusCode res <> 401 ->
   forall body, ResponseBody res = inr body ->
     err = Some (UnhandledStatusError (StatusCode res) body)).

(** ** An instance of the library parameters

    The theorems below hold for every [GoLib] and every [World]. To run the
    model on concrete requests, this section gives one instance: a parser
    for RFC 3339 timestamps in UTC and JSON decoders that know the bodies of
    the examples. *)

Module Instance.

Definition digit (c : ascii) : option Z :=
  let n := Z.of_N (N_of_ascii c) in
  if (48 <=? n) && (n <=? 57) then Some (n - 48) else None.

Fixpoint number (acc : Z) (cs : list ascii) : option Z :=
  match cs with
  | [] => Some acc
  | c :: rest =>
      match digit c with
      | Some d => number (acc * 10 + d) rest
      | None => None
      end
  end.

Definition is_leap (y : Z) : bool :=
  ((y mod 4 =? 0) && negb (y mod 100 =? 0)) || (y mod 400 =? 0).

Definition days_in_month (y m : Z) : Z :=
  if m =? 2 then (if is_leap y then 29 else 28)
  else if (m =? 4) || (m =? 6) || (m =? 9) || (m =? 11) then 30
  else 31.

(** Days from 1970-01-01 to the given civil date. *)
Definition days_from_civil (y m d : Z) : Z :=
  let y' := if m <=? 2 then y - 1 else y in
  let era := y' / 400 in
  let yoe := y' - era * 400 in
  let doy := (153 * (if 2 <? m then m - 3 else m + 9) + 2) / 5 + d - 1 in
  let doe := yoe * 365 + yoe / 4 - yoe / 100 + doy in
  era * 146097 + doe - 719468.

(** The fraction of a second: its first nine digits, in nanoseconds. *)
Definition fraction (cs : list ascii) : option Z :=
  match cs with
  | [] => None
  | _ =>
      match number 0 (firstn 9 cs), number 0 (skipn 9 cs) with
      | Some n, Some _ => Some (n * 10 ^ Z.of_nat (9 - length (firstn 9 cs)))
      | _, _ => None
      end
  end.

(** The seconds' suffix: an optional fraction, then the zone [Z]. *)
Definition suffix (cs : list ascii) : option Z :=
  match rev cs with
  | "Z"%char :: rfrac =>
      match rev rfrac with
      | [] => Some 0
      | "."%char :: frac => fraction frac
      | _ => None
      end
  | _ => None
  end.

(** [YYYY-MM-DDTHH:MM:SS[.fraction]Z] to nanoseconds since the epoch. *)
Definition parseRFC3339 (s : string) : option Z :=
  match list_ascii_of_string s with
  | y1 :: y2 :: y3 :: y4 :: "-"%char :: m1 :: m2 :: "-"%char :: d1 :: d2 :: "T"%char
    :: h1 :: h2 :: ":"%char :: mi1 :: mi2 :: ":"%char :: s1 :: s2 :: rest =>
      match number 0 [y1; y2; y3; y4], number 0 [m1; m2], number 0 [d1; d2],
            number 0 [h1; h2], number 0 [mi1; mi2], number 0 [s1; s2], suffix rest with
      | Some y, Some m, Some d, Some h, Some mi, Some sec, Some ns =>
          if (1 <=? m) && (m <=? 12) && (1 <=? d) && (d <=? days_in_month y m)
             && (h <? 24) && (mi <? 60) && (sec <? 60)
          then Some ((((days_from_civil y m d * 24 + h) * 60 + mi) * 60 + sec)
                     * 1000000000 + ns)
          else None
      | _, _, _, _, _, _, _ => None
      end
  | _ => None
  end.




Definition condition_of (broadcaster : string) : Condition :=
  {| BroadcasterUserID := broadcaster; ModeratorUserID := EmptyString; UserID := EmptyString;
     FromBroadcasterUserID := EmptyString; ToBroadcasterUserID := EmptyString; RewardID := any_nil;
     ClientID := EmptyString; ExtensionClientID := EmptyString;
     ConduitID := EmptyString; OrganizationID := EmptyString;
     CategoryID := EmptyString; CampaignID := EmptyString |}.

Definition subscription_of (id type broadcaster : string) : Subscription :=
  {| ID := id; Status := "enabled"; Type_ := type; Version := "1"; Cost := 1;
     Condition_ := condition_of broadcaster;
     Transport := {| TransportMethod := "webhook";
                     TransportCallback := "https://example.org/eventsub" |};
     CreatedAt := 1709294400000000000 |}.

Definition lookup_body {A} (table : list (string * A)) (body : string) : LibError + A :=
  match List.find (fun e => String.eqb (fst e) body) table with
  | Some e => inr (snd e)
  | None => inl "invalid character looking for beginning of value"%string
  end.

(** Bodies of inbound callbacks. *)
Definition payloads : list (string * (string * Subscription * string)) :=
  [ ("{subscription:{id:s1,type:stream.online},event:{broadcaster:215185844}}",
     (EmptyString, subscription_of "s1" "stream.online" "215185844", "{broadcaster:215185844}"));
    ("{challenge:pogchamp-kappa-360noscope-vohiyo,subscription:{id:abc123}}",
     ("pogchamp-kappa-360noscope-vohiyo",
      subscription_of "abc123" "stream.online" "215185844", EmptyString)) ]%string.

(** Bodies of creation responses. *)
Definition creations : list (string * list Subscription) :=
  [ ("{data:[{id:abc123}]}", [subscription_of "abc123" "stream.online" "215185844"]);
    ("{data:[]}", []) ]%string.

(** Bodies of list responses. *)
Definition pages : list (string * (list Subscription * string)) :=
  [ ("{data:[],pagination:{}}", ([], EmptyString));
    ("{data:[{id:on1},{id:on2}],pagination:{cursor:c1}}",
     ([subscription_of "on1" "stream.online" "1";
       subscription_of "on2" "stream.online" "2"], "c1"));
    ("{data:[{id:on3}],pagination:{}}",
     ([subscription_of "on3" "stream.online" "3"], EmptyString));
    ("{data:[{id:off1,type:stream.offline}],pagination:{}}",
     ([subscription_of "off1" "stream.offline" "215185844"], EmptyString)) ]%string.

Definition lib : GoLib :=
  {| time_Parse_RFC3339 := parseRFC3339;
     json_Unmarshal_payload := lookup_body payloads;
     json_Marshal_request := fun r => inr ("{type:" +:+ req_Type r +:+ "}");
     json_Unmarshal_data := lookup_body creations;
     json_Unmarshal_page := lookup_body pages;
     http_NewRequest_error := fun _ _ => None |}.

Definition helixURL : string := "https://api.twitch.tv/helix".

End Instance.

(** *** Concrete callbacks

    The signatures below were computed with an independent HMAC-SHA256
    implementation; the model recomputes them. *)

Module Callbacks.

Definition secret : string := "s3cre7-s3cre7".

Definition client0 : Client DefaultHandledEventsChecker :=
  {| clientID := "client-id"; clientSecret := "client-secret"; token := "token-0";
     webhookSecret := secret; webhookURL := "https://example.org/eventsub";
     debug := false; handledEventsChecker := NewDefaultHandledEventsChecker;
     OnRevocation := Some "onRevocation"%string;
     handlers := {[ "stream.online"%string := "onStreamOnline"%string ]} |}.

Definition notification_body : string :=
  "{subscription:{id:s1,type:stream.online},event:{broadcaster:215185844}}".

Definition callback_request (id timestamp signature type body : string) : HttpRequest :=
  {| Header := <[twitchMessageID := id]>
               (<[twitchMessageTimestamp := timestamp]>
               (<[twitchMessageSignature := "sha256=" +:+ signature]>
               (<[messageType := type]> ∅)));
     Body := inr body |}.

(** The clock of the examples: 2024-03-01T12:10:00Z. *)
Definition now0 : Z := 1709295000 * Second.

(** Ten minutes old to the nanosecond. *)
Definition exactly_ten_minutes : HttpRequest :=
  callback_request "msg-1" "2024-03-01T12:00:00Z"
    "c6e3579f066031570eb322c52414529337adb4ece33936cfc6598a5c0bae6007"
    "notification" notification_body.

(** Ten minutes and one second old. *)
Definition stale : HttpRequest :=
  callback_request "msg-2" "2024-03-01T11:59:59Z"
    "21bccb01d44dc46cfe7f5daebf7f56119d0172da61f09a59754ca622ecdf106e"
    "notification" notification_body.

(** Ten minutes minus one second old. *)
Definition fresh : HttpRequest :=
  callback_request "msg-3" "2024-03-01T12:00:01Z"
    "a08383c8571373223688e1ea8450e038dea7b38b54d7ae9ce433289f15eabc47"
    "notification" notification_body.

(** A timestamp that is not RFC 3339. *)
Definition unparseable : HttpRequest :=
  callback_request "msg-4" "yesterday"
    "bac6017e78dacb05249bbdba443f070755959a4ab795e868ab5282f9efd680b8"
    "notification" notification_body.

(** A message type the dispatcher does not know. *)
Definition unknown_type : HttpRequest :=
  callback_request "msg-5" "2024-03-01T12:00:00Z"
    "08af860f24e1805eb5e1076eaacdd687fadc8c8254783081c0675193735e5255"
    "keepalive" notification_body.

End Callbacks.

(** *** Concrete worlds *)

Module Worlds.

(** A scripted world answers the n-th interaction of each kind with the
    n-th entry of its script. When a script is exhausted the transport
    fails, the token endpoint fails, and no confirmation arrives. A
    put-back on the channel is taken by another waiter. *)
Record Script := {
  responses : list (LibError + Response);
  tokens : list (Error + string);
  arrivals : list SelectResult
}.

Definition scripted : World Script :=
  {| httpClient_Do := fun _ w =>
       match responses w with
       | r :: rest => (r, {| responses := rest; tokens := tokens w; arrivals := arrivals w |})
       | [] => (inl "connection refused"%string, w)
       end;
     token_endpoint := fun _ _ w =>
       match tokens w with
       | t :: rest => (t, {| responses := responses w; tokens := rest; arrivals := arrivals w |})
       | [] => (inl (OtherError "token endpoint unreachable"), w)
       end;
     select_recv := fun w =>
       match arrivals w with
       | a :: rest => (a, {| responses := responses w; tokens := tokens w; arrivals := rest |})
       | [] => (TimerFired, w)
       end;
     chan_send := fun _ w => (true, w) |}.

(** A routed world answers a request by its method and URL alone, from a
    table of routes; any other request gets 404. *)
Definition Routes := list (string * string * Response).

Definition not_found : Response :=
  {| StatusCode := 404; ResponseBody := inr "{error:Not Found}"%string |}.

Definition route (routes : Routes) (request : Request) : Response :=
  match List.find (fun e => String.eqb (fst (fst e)) (method request)
                            && String.eqb (snd (fst e)) (url request)) routes with
  | Some e => snd e
  | None => not_found
  end.

Definition routed (routes : Routes) : World unit :=
  {| httpClient_Do := fun request w => (inr (route routes request), w);
     token_endpoint := fun _ _ w => (inr "token-1"%string, w);
     select_recv := fun w => (TimerFired, w);
     chan_send := fun _ w => (true, w) |}.

Definition start {W} (w : W) : State DefaultHandledEventsChecker W :=
  {| client := Callbacks.client0; world := w; trace := [] |}.

Definition status (code : Z) (body : string) : LibError + Response :=
  inr {| StatusCode := code; ResponseBody := inr body |}.

Definition ok (body : string) : Response :=
  {| StatusCode := 200; ResponseBody := inr body |}.

Definition no_content : Response :=
  {| StatusCode := 204; ResponseBody := inr EmptyString |}.

(** The control plane holds one subscription, [off1], of type
    stream.offline for broadcaster 215185844, and none of type
    stream.online. *)
Definition one_offline : Routes :=
  [ ("GET", "https://api.twitch.tv/helix/eventsub/subscriptions",
     ok "{data:[{id:off1,type:stream.offline}],pagination:{}}");
    ("GET", "https://api.twitch.tv/helix/eventsub/subscriptions?type=stream.offline",
     ok "{data:[{id:off1,type:stream.offline}],pagination:{}}");
    ("GET", "https://api.twitch.tv/helix/eventsub/subscriptions?type=stream.online",
     ok "{data:[],pagination:{}}");
    ("DELETE", "https://api.twitch.tv/helix/eventsub/subscriptions?id=off1",
     no_content) ]%string.

(** The control plane holds three subscriptions of type stream.online and
    serves them in pages of two. *)
Definition three_online : Routes :=
  [ ("GET", "https://api.twitch.tv/helix/eventsub/subscriptions",
     ok "{data:[{id:on1},{id:on2}],pagination:{cursor:c1}}");
    ("GET", "https://api.twitch.tv/helix/eventsub/subscriptions?after=c1",
     ok "{data:[{id:on3}],pagination:{}}");
    ("GET", "https://api.twitch.tv/helix/eventsub/subscriptions?type=stream.online",
     ok "{data:[{id:on1},{id:on2}],pagination:{cursor:c1}}");
    ("GET", "https://api.twitch.tv/helix/eventsub/subscriptions?type=stream.online&after=c1",
     ok "{data:[{id:on3}],pagination:{}}") ]%string.

End Worlds.

(** ** Deliveries in sequence *)

Section Deliveries.

Context {C : Type} `{HandledEventsChecker C}.
Variable L : GoLib.

(** Callbacks handled one after the other, each at its own clock reading:
    the client of one run is the client of the next, and the effects follow
    each other. *)
Fixpoint Handler_sequence (c : Client C) (rs : list (Z * HttpRequest))
  : Client C * list Effect :=
  match rs with
  | [] => (c, [])
  | (now, r) :: rest =>
      let (c1, es1) := Handler L c now r in
      let (c2, es2) := Handler_sequence c1 rest in
      (c2, es1 ++ es2)
  end.

End Deliveries.

(** *** More callbacks *)

Module Deliveries.

Definition challenge_body : string :=
  "{challenge:pogchamp-kappa-360noscope-vohiyo,subscription:{id:abc123}}".

(** The challenge that follows a creation request. *)
Definition verification : HttpRequest :=
  Callbacks.callback_request "msg-6" "2024-03-01T12:09:00Z"
    "a01c862c8fda1a0104c82c6dad3458e8fbf2bb949939bc82763b38d51480084a"
    "webhook_callback_verification" challenge_body.

Definition revocation : HttpRequest :=
  Callbacks.callback_request "msg-7" "2024-03-01T12:09:00Z"
    "1377d367fb31f615130e0f5e927c445d253ed32a62a0fea8adc31bf20bbcff3f"
    "revocation" Callbacks.notification_body.

(** A validly signed notification whose body is not JSON. *)
Definition garbled : HttpRequest :=
  Callbacks.callback_request "msg-8" "2024-03-01T12:09:00Z"
    "c2ee65aa1a6392ff59283d7230f086af2255f5983a54c41759f07ba2d3dc07a7"
    "notification" "not json".

(** The fresh notification of [Callbacks.fresh] with a signature that is
    one character short. *)
Definition short_signature : HttpRequest :=
  Callbacks.callback_request "msg-3" "2024-03-01T12:00:01Z"
    "a08383c8571373223688e1ea8450e038dea7b38b54d7ae9ce433289f15eabc4"
    "notification" Callbacks.notification_body.

(** The stale notification of [Callbacks.stale] with the first five bytes
    of its timestamp moved to the end of its message id; the signature is
    the one of [Callbacks.stale]. *)
Definition shifted : HttpRequest :=
  Callbacks.callback_request "msg-22024" "-03-01T11:59:59Z"
    "21bccb01d44dc46cfe7f5daebf7f56119d0172da61f09a59754ca622ecdf106e"
    "notification" Callbacks.notification_body.

(** A request whose body cannot be read. *)
Definition unreadable : HttpRequest :=
  {| Header := Header Callbacks.fresh; Body := inl "unexpected EOF"%string |}.

End Deliveries.

(** ** The shape of a signature *)

(** A lowercase hexadecimal digit. *)
Definition is_hex_digit (c : ascii) : bool :=
  let n := Z.of_N (N_of_ascii c) in
  ((48 <=? n) && (n <=? 57)) || ((97 <=? n) && (n <=? 102)).

(** The byte 0 as a one-character string. *)
Definition NUL : string := String (ascii_of_N 0) EmptyString.

(** ** Vocabulary for the control-plane client *)

(** The request that [fetchSubscriptions] sends for the query string
    [params] when the client is [c]. *)
Definition list_request {C} (helixURL : string) (c : Client C) (params : string) : Request :=
  {| method := "GET";
     url := helixURL +:+ "/eventsub/subscriptions" +:+ params;
     header := [("Client-ID", clientID c); ("Authorization", "Bearer " +:+ token c)];
     body := None |}.

Section Serves.

Context {C W : Type}.
Variable L : GoLib.
Variable E : World W.
Variable helixURL : string.

(** [serves urlParams c cursor w pages w']: from the state [w], the world
    answers the list requests that follow [cursor] with status 200 and, one
    after the other, the pages [pages]; every page but the last comes with a
    non-empty cursor, the last with the empty cursor; [w'] is the state of
    the world after the last answer. *)
Inductive serves (urlParams : string) (c : Client C)
  : string -> W -> list (list Subscription) -> W -> Prop :=
| serves_last cursor w res w' body Data :
    httpClient_Do E (list_request helixURL c (page_params urlParams cursor)) w = (inr res, w') ->
    StatusCode res = 200 ->
    ResponseBody res = inr body ->
    json_Unmarshal_page L body = inr (Data, EmptyString) ->
    serves urlParams c cursor w [Data] w'
| serves_more cursor w res w' body Data Cursor rest w'' :
    httpClient_Do E (list_request helixURL c (page_params urlParams cursor)) w = (inr res, w') ->
    StatusCode res = 200 ->
    ResponseBody res = inr body ->
    json_Unmarshal_page L body = inr (Data, Cursor) ->
    Cursor <> EmptyString ->
    serves urlParams c Cursor w' rest w'' ->
    serves urlParams c cursor w (Data :: rest) w''.

End Serves.

(** The values of a reward id that Go compares by their content: nil,
    strings, integers and booleans. *)
Definition plain_reward (r : any) : Prop :=
  match r with
  | any_nil | any_string _ | any_int _ | any_bool _ => True
  | any_float64 _ | any_map _ | any_slice _ => False
  end.

Definition matches (condition : Condition) (sub : Subscription) : bool :=
  match Condition_eq (Condition_ sub) condition with
  | Some true => true
  | _ => false
  end.

(** *** More worlds *)

Module Worlds2.

(** Every request gets the same response. *)
Definition always (res : Response) : World unit :=
  {| httpClient_Do := fun _ w => (inr res, w);
     token_endpoint := fun _ _ w => (inr "token-1"%string, w);
     select_recv := fun w => (TimerFired, w);
     chan_send := fun _ w => (true, w) |}.

(** A scripted world in which no other receiver ever takes a value put
    back on the channel of verified subscriptions. *)
Definition lonely : World Worlds.Script :=
  {| httpClient_Do := httpClient_Do Worlds.scripted;
     token_endpoint := token_endpoint Worlds.scripted;
     select_recv := select_recv Worlds.scripted;
     chan_send := fun _ w => (false, w) |}.

Definition wrong_reward : Condition :=
  {| BroadcasterUserID := "215185844"; ModeratorUserID := EmptyString; UserID := EmptyString;
     FromBroadcasterUserID := EmptyString; ToBroadcasterUserID := EmptyString;
     RewardID := any_string "reward-9";
     ClientID := EmptyString; ExtensionClientID := EmptyString;
     ConduitID := EmptyString; OrganizationID := EmptyString;
     CategoryID := EmptyString; CampaignID := EmptyString |}.

End Worlds2.

(** *** Calls on concrete worlds *)

Module Runs.

Definition condition : Condition := Instance.condition_of "215185844".

Definition script (responses : list (LibError + Response)) (tokens : list (Error + string))
    (arrivals : list SelectResult) : Worlds.Script :=
  {| Worlds.responses := responses; Worlds.tokens := tokens; Worlds.arrivals := arrivals |}.

Definition unauthorized : LibError + Response := Worlds.status 401 "{error:Unauthorized}".

Definition accepted : LibError + Response := Worlds.status 202 "{data:[{id:abc123}]}".

Definition create : Request :=
  create_request Instance.helixURL Callbacks.client0 "{type:stream.online}".

(** Three listed subscriptions: the first and the last are for broadcaster
    215185844, the second for another one. *)
Definition listed : list Subscription :=
  [ Instance.subscription_of "first" "stream.online" "215185844";
    Instance.subscription_of "second" "stream.online" "1";
    Instance.subscription_of "off1" "stream.offline" "215185844" ].

End Runs.

(** * Properties *)

(** ** The library models run on known values *)

Example K_from_primes : SHA256.K = map SHA256.cbrt_frac32 SHA256.primes64.
Proof. vm_compute. reflexivity. Qed.

Example init_from_primes :
  SHA256.init =
  match map SHA256.sqrt_frac32 (firstn 8 SHA256.primes64) with
  | [a; b; c; d; e; f; g; h] => SHA256.Digest a b c d e f g h
  | _ => SHA256.init
  end.
Proof. vm_compute. reflexivity. Qed.

Example sha256_abc :
  hex_EncodeToString (SHA256.sum (bytes_of_string "abc")) =
  "ba7816bf8f01cfea414140de5dae2223b00361a396177a9cb410ff61f20015ad"%string.
Proof. vm_compute. reflexivity. Qed.

Example sha256_two_blocks :
  hex_EncodeToString (SHA256.sum (bytes_of_string
    "abcdbcdecdefdefgefghfghighijhijkijkljklmklmnlmnomnopnopq")) =
  "248d6a61d20638b8e5c026930c3e6039a33ce45964ff2167f6ecedd419db06c1"%string.
Proof. vm_compute. reflexivity. Qed.

(** RFC 4231, test case 2. *)
Example hmac_rfc4231_2 :
  generateHmac "Jefe" "what do ya want for nothing?" =
  "5bdcc146bf60754e6a042426089575c75a003f089d2739839dec58b964ec3843"%string.
Proof. vm_compute. reflexivity. Qed.

Example parse_epoch : Instance.parseRFC3339 "1970-01-01T00:00:00Z" = Some 0.
Proof. reflexivity. Qed.

Example parse_2024 :
  Instance.parseRFC3339 "2024-03-01T12:00:00.5Z" = Some 1709294400500000000.
Proof. vm_compute. reflexivity. Qed.

Example parse_garbage : Instance.parseRFC3339 "yesterday" = None.
Proof. reflexivity. Qed.

Example fresh_is_signed :
  validly_signed Callbacks.client0 Callbacks.fresh Callbacks.notification_body.
Proof. split; vm_compute; reflexivity. Qed.

Example fresh_is_forwarded :
  Handler Instance.lib Callbacks.client0 Callbacks.now0 Callbacks.fresh =
  (set_handledEventsChecker Callbacks.client0 {| handledEvents := ["msg-3"%string] |},
   [Log "Received valid signature"; Log "Received event for stream.online ";
    GoHandler "onStreamOnline" "{broadcaster:215185844}"; WriteHeader 204]).
Proof. vm_compute. reflexivity. Qed.

Example tampered_is_rejected :
  snd (Handler Instance.lib Callbacks.client0 Callbacks.now0
         (Callbacks.callback_request "msg-3" "2024-03-01T12:00:01Z"
            "a08383c8571373223688e1ea8450e038dea7b38b54d7ae9ce433289f15eabc47"
            "notification" "{subscription:{id:s1,type:stream.online},event:{}}"))
  = [WriteHeader 403].
Proof. vm_compute. reflexivity. Qed.


(** ** The inbound dispatcher *)

Section HandlerProperties.

Context {C : Type} `{HandledEventsChecker C}.
Variable L : GoLib.

Lemma validly_signed_body (c : Client C) r body :
  validly_signed c r body -> Body r = inr body.
Proof. by intros [? _]. Qed.

(** A stale message: 204, nothing else but log lines, the client as it
    was. *)
Lemma Handler_stale (c : Client C) now r body :
  validly_signed c r body ->
  isMessageTooOld L now (Header_Get r twitchMessageTimestamp) = true ->
  Handler L c now r = (c, [Log "Received valid signature"; WriteHeader 204]).
Proof.
  intros [Hb Hs] Hold. unfold Handler. rewrite Hb. cbv zeta.
  rewrite Hs, Hold. reflexivity.
Qed.

(** A fresh, validly signed notification whose body decodes. *)
Lemma Handler_notification (c : Client C) now r body p :
  validly_signed c r body ->
  isMessageTooOld L now (Header_Get r twitchMessageTimestamp) = false ->
  json_Unmarshal_payload L body = inr p ->
  Header_Get r messageType = messageTypeNotification ->
  Handler L c now r =
    let received := [Log "Received valid signature";
                     Log ("Received event for " +:+ Type_ (snd (fst p)) +:+ " ")] in
    let messageID := Header_Get r twitchMessageID in
    if IsHandled (handledEventsChecker c) messageID then
      (c, received ++ [Log "Got request for handled event, ignoring..."; WriteHeader 204])
    else
      (set_handledEventsChecker c (MarkHandled (handledEventsChecker c) messageID),
       received ++
       match handlers c !! Type_ (snd (fst p)) with
       | Some handler => [GoHandler handler (snd p); WriteHeader 204]
       | None => [Log ("No handler for event " +:+ Type_ (snd (fst p))); WriteHeader 204]
       end).
Proof.
  intros [Hb Hs] Hfresh Hp Ht. unfold Handler. rewrite Hb. cbv zeta.
  rewrite Hs, Hfresh, Hp, Ht. simpl.
  destruct (IsHandled _ _); [reflexivity|].
  destruct (handlers c !! _); reflexivity.
Qed.

End HandlerProperties.


Lemma slices_Contains_snoc (l : list string) (x : string) :
  slices_Contains (l ++ [x]) x = true.
Proof.
  unfold slices_Contains. rewrite existsb_app. simpl.
  rewrite String.eqb_refl. apply orb_true_iff. right. reflexivity.
Qed.



Lemma Time_Sub_exact (t u : Z) :
  minDuration <= t - u <= maxDuration -> Time_Sub t u = t - u.
Proof.
  intros [Hlo Hhi]. unfold Time_Sub. cbv zeta.
  destruct (Z.ltb_spec (t - u) minDuration); [lia|].
  destruct (Z.ltb_spec maxDuration (t - u)); [lia|reflexivity].
Qed.

(** Saturation does not change the comparison with ten minutes. *)
Lemma time_Since_gt_ten_minutes (now t : Z) :
  (10 * Minute <? time_Since now t) = (10 * Minute <? now - t).
Proof.
  unfold time_Since, Time_Sub. cbv zeta.
  assert (Hmin : minDuration < 0) by reflexivity.
  assert (Hmax : 10 * Minute < maxDuration) by reflexivity.
  assert (H10 : 0 < 10 * Minute) by reflexivity.
  destruct (Z.ltb_spec (now - t) minDuration).
  - destruct (Z.ltb_spec (10 * Minute) minDuration), (Z.ltb_spec (10 * Minute) (now - t));
      try reflexivity; lia.
  - destruct (Z.ltb_spec maxDuration (now - t)); [|reflexivity].
    destruct (Z.ltb_spec (10 * Minute) maxDuration), (Z.ltb_spec (10 * Minute) (now - t));
      try reflexivity; lia.
Qed.

Lemma isMessageTooOld_unparseable (L : GoLib) now timestamp :
  time_Parse_RFC3339 L timestamp = None -> isMessageTooOld L now timestamp = false.
Proof. intros Hp. unfold isMessageTooOld. rewrite Hp. reflexivity. Qed.

Lemma isMessageTooOld_parsed (L : GoLib) now timestamp t :
  time_Parse_RFC3339 L timestamp = Some t ->
  isMessageTooOld L now timestamp = (10 * Minute <? now - t).
Proof.
  intros Hp. unfold isMessageTooOld. rewrite Hp. apply time_Since_gt_ten_minutes.
Qed.

(** C6: a validly signed message whose timestamp header parses to an
    instant more than ten minutes before the clock reading is answered with
    204, invokes no user function and leaves the client as it was; a
    notification that is ten minutes minus one second old is forwarded to the
    handler registered for its subscription type; and so is a notification
    whose timestamp header does not parse. *)
Theorem C6_freshness {C : Type} `{HandledEventsChecker C}
    (L : GoLib) (c : Client C) now r body :
  validly_signed c r body ->
  let timestamp := Header_Get r twitchMessageTimestamp in
  let c' := fst (Handler L c now r) in
  let es := snd (Handler L c now r) in
  let forwarded :=
    forall p handler,
      json_Unmarshal_payload L body = inr p ->
      Header_Get r messageType = messageTypeNotification ->
      IsHandled (handledEventsChecker c) (Header_Get r twitchMessageID) = false ->
      handlers c !! Type_ (snd (fst p)) = Some handler ->
      List.filter is_user_call es = [GoHandler handler (snd p)] /\ status_of es = Some 204 in
  (forall t, time_Parse_RFC3339 L timestamp = Some t -> 10 * Minute < now - t ->
     status_of es = Some 204 /\ List.filter is_user_call es = [] /\ c' = c) /\
  (forall t, time_Parse_RFC3339 L timestamp = Some t -> now - t = 10 * Minute - Second ->
     forwarded) /\
  (time_Parse_RFC3339 L timestamp = None -> forwarded).
Proof.
  intros Hs timestamp c' es forwarded.
  assert (Hfresh : isMessageTooOld L now timestamp = false -> forwarded).
  { intros Hf p handler Hp Ht Hh Hl. subst es.
    rewrite (Handler_notification L c now r body p Hs Hf Hp Ht). cbv zeta.
    rewrite Hh, Hl. split; reflexivity. }
  split; [|split].
  - intros t Hp Hold. subst c' es.
    rewrite (Handler_stale L c now r body Hs).
    + repeat split.
    + fold timestamp. rewrite (isMessageTooOld_parsed L now timestamp t Hp).
      apply Z.ltb_lt. exact Hold.
  - intros t Hp Hage. apply Hfresh.
    rewrite (isMessageTooOld_parsed L now timestamp t Hp), Hage.
    reflexivity.
  - intros Hp. apply Hfresh. apply isMessageTooOld_unparseable. exact Hp.
Qed.

Lemma C6_witness :
  (status_of (snd (Handler Instance.lib Callbacks.client0 Callbacks.now0 Callbacks.stale))
     = Some 204 /\
   List.filter is_user_call
     (snd (Handler Instance.lib Callbacks.client0 Callbacks.now0 Callbacks.stale)) = [] /\
   fst (Handler Instance.lib Callbacks.client0 Callbacks.now0 Callbacks.stale)
     = Callbacks.client0) /\
  (List.filter is_user_call
     (snd (Handler Instance.lib Callbacks.client0 Callbacks.now0 Callbacks.fresh))
     = [GoHandler "onStreamOnline" "{broadcaster:215185844}"] /\
   status_of (snd (Handler Instance.lib Callbacks.client0 Callbacks.now0 Callbacks.fresh))
     = Some 204) /\
  (List.filter is_user_call
     (snd (Handler Instance.lib Callbacks.client0 Callbacks.now0 Callbacks.unparseable))
     = [GoHandler "onStreamOnline" "{broadcaster:215185844}"] /\
   status_of (snd (Handler Instance.lib Callbacks.client0 Callbacks.now0 Callbacks.unparseable))
     = Some 204).
Proof.
  split; [|split].
  - apply (proj1 (C6_freshness Instance.lib Callbacks.client0 Callbacks.now0
                    Callbacks.stale Callbacks.notification_body
                    ltac:(split; vm_compute; reflexivity))
             (1709294399 * Second));
      vm_compute; reflexivity.
  - apply (proj1 (proj2 (C6_freshness Instance.lib Callbacks.client0 Callbacks.now0
                    Callbacks.fresh Callbacks.notification_body
                    ltac:(split; vm_compute; reflexivity)))
             (1709294401 * Second) ltac:(vm_compute; reflexivity) ltac:(vm_compute; reflexivity)
             (EmptyString, Instance.subscription_of "s1" "stream.online" "215185844",
              "{broadcaster:215185844}"%string));
      vm_compute; reflexivity.
  - apply (proj2 (proj2 (C6_freshness Instance.lib Callbacks.client0 Callbacks.now0
                    Callbacks.unparseable Callbacks.notification_body
                    ltac:(split; vm_compute; reflexivity)))
             ltac:(vm_compute; reflexivity)
             (EmptyString, Instance.subscription_of "s1" "stream.online" "215185844",
              "{broadcaster:215185844}"%string));
      vm_compute; reflexivity.
Defined.

(** C10: when the message-type header is none of notification,
    webhook_callback_verification and revocation, a run of [Handler] invokes
    no user handler and no revocation callback, publishes nothing to the
    channel of verified subscriptions, and leaves the client, hence the
    handled events of any checker, as it was; this holds whatever the
    signature and the age of the message are. When the request is validly
    signed and fresh and its body decodes, the run does nothing but log that
    the signature is valid. *)
Theorem C10_unknown_type_is_inert {C : Type} `{HandledEventsChecker C}
    (L : GoLib) (c : Client C) now r :
  Header_Get r messageType <> messageTypeNotification ->
  Header_Get r messageType <> messageTypeVerification ->
  Header_Get r messageType <> messageTypeRevocation ->
  let c' := fst (Handler L c now r) in
  let es := snd (Handler L c now r) in
  c' = c /\
  List.filter is_user_call es = [] /\
  List.filter is_publish es = [] /\
  (forall body p,
     validly_signed c r body ->
     isMessageTooOld L now (Header_Get r twitchMessageTimestamp) = false ->
     json_Unmarshal_payload L body = inr p ->
     es = [Log "Received valid signature"]).
Proof.
  intros Hn Hv Hr c' es. subst c' es.
  apply String.eqb_neq in Hn, Hv, Hr.
  unfold Handler.
  destruct (Body r) as [err|body] eqn:Hb.
  { repeat split. intros body p [Hb' _]. congruence. }
  cbv zeta.
  destruct (verifyHmac _ _) eqn:Hs.
  2:{ repeat split. intros body' p [Hb' Hs']. rewrite Hb in Hb'.
      injection Hb' as <-. rewrite Hs in Hs'. discriminate. }
  destruct (isMessageTooOld L now _) eqn:Hold.
  { repeat split. intros body' p _ Hf. congruence. }
  destruct (json_Unmarshal_payload L body) as [err|p] eqn:Hp.
  { repeat split. intros body' p [Hb' _] _ Hp'. rewrite Hb in Hb'.
    injection Hb' as <-. rewrite Hp in Hp'. discriminate. }
  rewrite Hn, Hv, Hr. repeat split.
Qed.

Lemma C10_witness :
  fst (Handler Instance.lib Callbacks.client0 Callbacks.now0 Callbacks.unknown_type)
    = Callbacks.client0 /\
  List.filter is_user_call
    (snd (Handler Instance.lib Callbacks.client0 Callbacks.now0 Callbacks.unknown_type)) = [] /\
  List.filter is_publish
    (snd (Handler Instance.lib Callbacks.client0 Callbacks.now0 Callbacks.unknown_type)) = [] /\
  snd (Handler Instance.lib Callbacks.client0 Callbacks.now0 Callbacks.unknown_type)
    = [Log "Received valid signature"].
Proof.
  destruct (C10_unknown_type_is_inert Instance.lib Callbacks.client0 Callbacks.now0
              Callbacks.unknown_type
              ltac:(vm_compute; intros Heq; discriminate Heq)
              ltac:(vm_compute; intros Heq; discriminate Heq)
              ltac:(vm_compute; intros Heq; discriminate Heq)) as (Hc & Hu & Hp & Hes).
  split; [exact Hc|]. split; [exact Hu|]. split; [exact Hp|].
  apply (Hes Callbacks.notification_body
           (EmptyString, Instance.subscription_of "s1" "stream.online" "215185844",
            "{broadcaster:215185844}"%string)).
  - split; vm_compute; reflexivity.
  - vm_compute; reflexivity.
  - vm_compute; reflexivity.
Defined.

(** ** The control-plane client *)

Section SubscriptionProperties.

Context {C W : Type}.
Variable L : GoLib.
Variable E : World W.
Variable helixURL : string.

(** Unfolds the monad and the primitive steps of a call. *)
Ltac run :=
  unfold genericRequest, do_request, generateToken, log;
  unfold emit, interact, get_client, assign_token, panic, out_of_fuel;
  unfold mbind, M_bind, mret, M_ret; simpl.

Lemma removeSubscription_run id (s : State C W) res w :
  httpClient_Do E (delete_request helixURL (client s) id) (world s) = (inr res, w) ->
  exists err,
    removeSubscription E helixURL id s =
      Done (err, {| client := client s; world := w;
                    trace := trace s ++ [AHttp (delete_request helixURL (client s) id)] |}) /\
    remove_outcome res err /\
    (StatusCode res <> 401 -> forall e, err = Some e -> errors_As_Unauthorized e = false).
Proof.
  intros Hdo. unfold removeSubscription, delete_request in *. run.
  simpl in Hdo. rewrite Hdo. simpl. unfold remove_outcome.
  destruct (Z.eqb_spec (StatusCode res) 204) as [H204|H204].
  { eexists; split; [reflexivity|]. split; [|discriminate].
    repeat split; intros; try lia; reflexivity. }
  destruct (Z.eqb_spec (StatusCode res) 401) as [H401|H401].
  { eexists; split; [reflexivity|]. split; [|intros; lia].
    repeat split; intros; try lia; reflexivity. }
  destruct (Z.eqb_spec (StatusCode res) 404) as [H404|H404].
  { eexists; split; [reflexivity|]. split; [|intros _ e [= <-]; reflexivity].
    repeat split; intros; try lia; reflexivity. }
  destruct (ResponseBody res) as [e|b] eqn:Hb.
  - eexists; split; [reflexivity|]. split; [|intros _ e' [= <-]; reflexivity].
    repeat split; intros; try lia; discriminate.
  - eexists; split; [reflexivity|]. split; [|intros _ e' [= <-]; reflexivity].
    repeat split; intros; try lia. congruence.
Qed.

(** C8: when the first delete call is not answered with 401, there is no
    regeneration and no second call, and the result follows the response
    (204 nil, 404 not found, anything else unhandled status with the status
    and the raw body). When it is answered with 401 and the token endpoint
    issues a token, the call makes exactly one regeneration followed by
    exactly one retried delete call, which carries the new token, and the
    result follows the second response in the same way: in particular a
    second 401 surfaces the unauthorized error and nothing more is sent. *)
Theorem C8_RemoveSubscription_retries_once id (s : State C W) res1 w1 :
  let c := client s in
  httpClient_Do E (delete_request helixURL c id) (world s) = (inr res1, w1) ->
  (StatusCode res1 <> 401 ->
   exists err s',
     RemoveSubscription E helixURL id s = Done (err, s') /\
     remove_outcome res1 err /\
     interactions (trace s') = interactions (trace s) ++ [AHttp (delete_request helixURL c id)] /\
     client s' = c) /\
  (StatusCode res1 = 401 ->
   forall token w2 res2 w3,
     token_endpoint E (clientID c) (clientSecret c) w1 = (inr token, w2) ->
     httpClient_Do E (delete_request helixURL (set_token c token) id) w2 = (inr res2, w3) ->
     exists err s',
       RemoveSubscription E helixURL id s = Done (err, s') /\
       remove_outcome res2 err /\
       interactions (trace s') =
         interactions (trace s) ++
         [AHttp (delete_request helixURL c id);
          AGenerateToken (clientID c) (clientSecret c);
          AHttp (delete_request helixURL (set_token c token) id)] /\
       client s' = set_token c token).
Proof.
  intros c Hdo.
  destruct (removeSubscription_run id s res1 w1 Hdo) as (err1 & Hrun1 & Hout1 & Hua).
  split.
  - intros Hne. specialize (Hua Hne).
    unfold RemoveSubscription. unfold mbind at 1. unfold M_bind at 1. rewrite Hrun1.
    destruct err1 as [e|].
    + rewrite (Hua e eq_refl). do 2 eexists. split; [reflexivity|].
      split; [exact Hout1|]. simpl. unfold interactions. rewrite List.filter_app.
      split; reflexivity.
    + do 2 eexists. split; [reflexivity|].
      split; [exact Hout1|]. simpl. unfold interactions. rewrite List.filter_app.
      split; reflexivity.
  - intros H401 token w2 res2 w3 Htok Hdo2.
    assert (Herr1 : err1 = Some UnauthorizedError).
    { destruct Hout1 as (_ & _ & H & _). exact (H H401). }
    subst err1.
    set (s1 := {| client := set_token c token; world := w2;
                  trace := ((trace s ++ [AHttp (delete_request helixURL c id)])
                            ++ [ALog "Token invalid, generating a new one"])
                           ++ [AGenerateToken (clientID c) (clientSecret c)] |}).
    destruct (removeSubscription_run id s1 res2 w3 Hdo2) as (err2 & Hrun2 & Hout2 & _).
    exists err2. eexists. split.
    + unfold RemoveSubscription. unfold mbind at 1. unfold M_bind at 1. rewrite Hrun1.
      cbn [errors_As_Unauthorized]. run. fold c. rewrite Htok. simpl.
      exact Hrun2.
    + split; [exact Hout2|]. simpl. split; [|reflexivity].
      unfold interactions. rewrite !List.filter_app. simpl. rewrite <- !app_assoc. reflexivity.
Qed.

(** The confirmation loop never panics. *)
Lemma awaitConfirmation_no_panic fuel subscription (s : State C W) msg :
  awaitConfirmation E fuel subscription s <> Panic msg.
Proof.
  revert s. induction fuel as [|fuel IH]; intros s; [discriminate|].
  simpl. run.
  destruct (select_recv E (world s)) as [[id|] w]; simpl; [|discriminate].
  destruct (String.eqb id (ID subscription)); [discriminate|]. simpl.
  destruct (chan_send E id w) as [[|] w']; simpl; [apply IH|discriminate].
Qed.

(** On a timer firing at the first turn, the loop returns the timeout error
    that carries the subscription it was waiting for. *)
Lemma awaitConfirmation_timeout fuel subscription (s : State C W) w :
  select_recv E (world s) = (TimerFired, w) ->
  awaitConfirmation E (S fuel) subscription s =
    Done ((EmptyString, Some (VerificationTimeoutError subscription)),
          {| client := client s; world := w; trace := trace s ++ [ASelect TimerFired] |}).
Proof. intros Hsel. simpl. run. rewrite Hsel. reflexivity. Qed.

(** C9: [addSubscription] never panics, so the access to the first element
    of the data array is only reached when the array is not empty; and when
    the creation endpoint answers 202 with a body whose data array decodes
    to the empty list, [addSubscription] returns the internal error "Helix
    did not return the subscription they were supposed to" after that one
    request. *)
Theorem C9_empty_data_is_internal_error
    fuel Type_ version condition (s : State C W) reqBody res w body :
  let c := client s in
  json_Marshal_request L
    {| req_Type := Type_; req_Version := version; req_Condition := condition;
       req_Transport := {| Method := "webhook"; Callback := webhookURL c;
                           Secret := webhookSecret c |} |} = inr reqBody ->
  http_NewRequest_error L "POST" (helixURL +:+ "/eventsub/subscriptions") = None ->
  httpClient_Do E (create_request helixURL c reqBody) (world s) = (inr res, w) ->
  StatusCode res = 202 ->
  ResponseBody res = inr body ->
  json_Unmarshal_data L body = inr [] ->
  addSubscription L E helixURL fuel Type_ version condition s =
    Done ((EmptyString,
           Some (InternalError "Helix did not return the subscription they were supposed to"
                               None)),
          {| client := c; world := w;
             trace := trace s ++ [AHttp (create_request helixURL c reqBody)] |}) /\
  (forall fuel' Type_' version' condition' (s' : State C W) msg,
     addSubscription L E helixURL fuel' Type_' version' condition' s' <> Panic msg).
Proof.
  intros c Hm Hn Hdo H202 Hb Hd. split.
  - unfold addSubscription, create_request in *. run. fold c.
    simpl in Hm. rewrite Hm. simpl in Hn. rewrite Hn. run.
    simpl in Hdo. rewrite Hdo. simpl. rewrite Hb, H202. simpl. rewrite Hd. reflexivity.
  - clear. intros fuel Type_ version condition s msg.
    unfold addSubscription. run.
    destruct (json_Marshal_request L _); [discriminate|].
    destruct (http_NewRequest_error L _ _); [discriminate|]. run.
    destruct (httpClient_Do E _ _) as [[err|res] w]; simpl; [discriminate|].
    destruct (ResponseBody res); [discriminate|].
    destruct (StatusCode res =? 409); [discriminate|].
    destruct (StatusCode res =? 401); [discriminate|].
    destruct (StatusCode res =? 202); simpl; [|discriminate].
    destruct (json_Unmarshal_data L _) as [err|Data]; [discriminate|].
    destruct Data as [|subscription rest]; simpl; [discriminate|].
    apply awaitConfirmation_no_panic.
Qed.

(** A non-empty data array: the call goes on to wait for the confirmation
    of the first record. *)
Lemma addSubscription_accepted
    fuel Type_ version condition (s : State C W) reqBody res w body subscription rest :
  let c := client s in
  json_Marshal_request L
    {| req_Type := Type_; req_Version := version; req_Condition := condition;
       req_Transport := {| Method := "webhook"; Callback := webhookURL c;
                           Secret := webhookSecret c |} |} = inr reqBody ->
  http_NewRequest_error L "POST" (helixURL +:+ "/eventsub/subscriptions") = None ->
  httpClient_Do E (create_request helixURL c reqBody) (world s) = (inr res, w) ->
  StatusCode res = 202 ->
  ResponseBody res = inr body ->
  json_Unmarshal_data L body = inr (subscription :: rest) ->
  addSubscription L E helixURL fuel Type_ version condition s =
    awaitConfirmation E fuel subscription
      {| client := c; world := w;
         trace := trace s ++ [AHttp (create_request helixURL c reqBody)] |}.
Proof.
  intros c Hm Hn Hdo H202 Hb Hd.
  unfold addSubscription, create_request in *. run. fold c.
  simpl in Hm. rewrite Hm. simpl in Hn. rewrite Hn. run.
  simpl in Hdo. rewrite Hdo. simpl. rewrite Hb, H202. simpl. rewrite Hd. reflexivity.
Qed.

(** What [AddSubscription] does with the result of the first attempt when
    it is not the unauthorized error: the identifier is passed on and the
    error is replaced by nil. *)
Lemma AddSubscription_first_attempt
    fuel Type_ version condition (s s' : State C W) id err :
  addSubscription L E helixURL fuel Type_ version condition s = Done ((id, err), s') ->
  (forall e, err = Some e -> errors_As_Unauthorized e = false) ->
  AddSubscription L E helixURL fuel Type_ version condition s = Done ((id, None), s').
Proof.
  intros Hrun Hua. unfold AddSubscription. unfold mbind at 1. unfold M_bind at 1.
  rewrite Hrun. destruct err as [e|]; [|reflexivity].
  rewrite (Hua e eq_refl). reflexivity.
Qed.

(** The first request of [fetchSubscriptions], made with the empty cursor,
    goes to the bare path whatever [urlParams] is; a later one carries
    [urlParams] only when it is empty. *)
Lemma page_params_first urlParams : page_params urlParams EmptyString = EmptyString.
Proof. reflexivity. Qed.

Lemma page_params_next urlParams cursor :
  cursor <> EmptyString -> urlParams <> EmptyString ->
  page_params urlParams cursor = "&after=" +:+ cursor.
Proof.
  intros Hc Hu. unfold page_params.
  apply String.eqb_neq in Hc, Hu. rewrite Hc, Hu. reflexivity.
Qed.

(** When no listed subscription has the condition asked for, the loop of
    [RemoveSubscriptionByType] returns nil and does nothing. *)
Lemma removeMatching_no_match condition subs (s : State C W) :
  Forall (fun sub => Condition_eq (Condition_ sub) condition = Some false) subs ->
  removeMatching E helixURL condition subs s = Done (None, s).
Proof.
  induction 1 as [|sub rest Hsub _ IH]; [reflexivity|].
  simpl. rewrite Hsub. exact IH.
Qed.

(** A removal that fails ends the loop: the error is returned and the
    subscriptions after it are not looked at. *)
Lemma removeMatching_aborts condition sub rest (s s' : State C W) e :
  Condition_eq (Condition_ sub) condition = Some true ->
  RemoveSubscription E helixURL (ID sub)
    {| client := client s; world := world s;
       trace := trace s ++ [ALog ("Removing subscription " +:+ ID sub)] |}
    = Done (Some e, s') ->
  removeMatching E helixURL condition (sub :: rest) s = Done (Some e, s').
Proof.
  intros Heq Hrm. simpl. rewrite Heq. run.
  unfold log, emit in Hrm. simpl in Hrm. rewrite Hrm. reflexivity.
Qed.

End SubscriptionProperties.

Lemma C8_witness :
  exists s',
    RemoveSubscription Worlds.scripted Instance.helixURL "sub-1"
      (Worlds.start {| Worlds.responses := [Worlds.status 401 "{error:Unauthorized}";
                                            Worlds.status 401 "{error:Unauthorized}"];
                       Worlds.tokens := [inr "token-1"%string];
                       Worlds.arrivals := [] |})
      = Done (Some UnauthorizedError, s') /\
    interactions (trace s') =
      [AHttp (delete_request Instance.helixURL Callbacks.client0 "sub-1");
       AGenerateToken "client-id" "client-secret";
       AHttp (delete_request Instance.helixURL (set_token Callbacks.client0 "token-1") "sub-1")] /\
    token (client s') = "token-1"%string.
Proof.
  destruct (proj2 (C8_RemoveSubscription_retries_once Worlds.scripted Instance.helixURL "sub-1"
              (Worlds.start {| Worlds.responses := [Worlds.status 401 "{error:Unauthorized}";
                                                    Worlds.status 401 "{error:Unauthorized}"];
                               Worlds.tokens := [inr "token-1"%string];
                               Worlds.arrivals := [] |})
              {| StatusCode := 401; ResponseBody := inr "{error:Unauthorized}"%string |}
              {| Worlds.responses := [Worlds.status 401 "{error:Unauthorized}"];
                 Worlds.tokens := [inr "token-1"%string];
                 Worlds.arrivals := [] |}
              eq_refl)
            eq_refl "token-1"%string
            {| Worlds.responses := [Worlds.status 401 "{error:Unauthorized}"];
               Worlds.tokens := []; Worlds.arrivals := [] |}
            {| StatusCode := 401; ResponseBody := inr "{error:Unauthorized}"%string |}
            {| Worlds.responses := []; Worlds.tokens := []; Worlds.arrivals := [] |}
            eq_refl eq_refl)
    as (err & s' & Hrun & Hout & Htrace & Hclient).
  exists s'. split; [|split].
  - destruct Hout as (_ & _ & H401 & _). rewrite <- (H401 eq_refl). exact Hrun.
  - exact Htrace.
  - rewrite Hclient. reflexivity.
Defined.

Lemma C9_witness :
  addSubscription Instance.lib Worlds.scripted Instance.helixURL 3
      "stream.online" "1" (Instance.condition_of "215185844")
      (Worlds.start {| Worlds.responses := [Worlds.status 202 "{data:[]}"];
                       Worlds.tokens := []; Worlds.arrivals := [Received "abc123"] |})
    = Done ((EmptyString,
             Some (InternalError "Helix did not return the subscription they were supposed to"
                                 None)),
            {| client := Callbacks.client0;
               world := {| Worlds.responses := []; Worlds.tokens := [];
                           Worlds.arrivals := [Received "abc123"] |};
               trace := [AHttp (create_request Instance.helixURL Callbacks.client0
                                  "{type:stream.online}")] |}).
Proof.
  apply (proj1 (C9_empty_data_is_internal_error Instance.lib Worlds.scripted Instance.helixURL 3
                  "stream.online" "1" (Instance.condition_of "215185844")
                  (Worlds.start {| Worlds.responses := [Worlds.status 202 "{data:[]}"];
                                   Worlds.tokens := [];
                                   Worlds.arrivals := [Received "abc123"] |})
                  "{type:stream.online}"
                  {| StatusCode := 202; ResponseBody := inr "{data:[]}"%string |}
                  {| Worlds.responses := []; Worlds.tokens := [];
                     Worlds.arrivals := [Received "abc123"] |}
                  "{data:[]}"
                  eq_refl eq_refl eq_refl eq_refl eq_refl eq_refl)).
Defined.

(** *** Runs of the control-plane client *)

(** The unauthorized error is resolved inside [AddSubscription]: one
    regeneration, one retry with the new token, and the confirmed
    identifier is returned. *)
Example AddSubscription_retries_once :
  exists s',
    AddSubscription Instance.lib Worlds.scripted Instance.helixURL 3
      "stream.online" "1" (Instance.condition_of "215185844")
      (Worlds.start {| Worlds.responses := [Worlds.status 401 "{error:Unauthorized}";
                                            Worlds.status 202 "{data:[{id:abc123}]}"];
                       Worlds.tokens := [inr "token-1"%string];
                       Worlds.arrivals := [Received "abc123"] |})
      = Done (("abc123"%string, None), s') /\
    interactions (trace s') =
      [AHttp (create_request Instance.helixURL Callbacks.client0 "{type:stream.online}");
       AGenerateToken "client-id" "client-secret";
       AHttp (create_request Instance.helixURL (set_token Callbacks.client0 "token-1")
                "{type:stream.online}");
       ASelect (Received "abc123")].
Proof. eexists; split; vm_compute; reflexivity. Qed.

(** A confirmation for another subscription is put back on the channel and
    the call keeps waiting. *)
Example AddSubscription_requeues_other_confirmation :
  exists s',
    AddSubscription Instance.lib Worlds.scripted Instance.helixURL 3
      "stream.online" "1" (Instance.condition_of "215185844")
      (Worlds.start {| Worlds.responses := [Worlds.status 202 "{data:[{id:abc123}]}"];
                       Worlds.tokens := [];
                       Worlds.arrivals := [Received "other"; Received "abc123"] |})
      = Done (("abc123"%string, None), s') /\
    interactions (trace s') =
      [AHttp (create_request Instance.helixURL Callbacks.client0 "{type:stream.online}");
       ASelect (Received "other"); ASend "other"; ASelect (Received "abc123")].
Proof. eexists; split; vm_compute; reflexivity. Qed.

(** Without a filter the listing follows the cursor with a well-formed
    query: three subscriptions come back from two requests. *)
Example GetSubscriptions_paginates :
  exists subscriptions s',
    GetSubscriptions Instance.lib (Worlds.routed Worlds.three_online) Instance.helixURL 5
      (Worlds.start tt) = Done ((subscriptions, None), s') /\
    map ID subscriptions = ["on1"; "on2"; "on3"]%string /\
    map url (http_requests (trace s')) =
      [ "https://api.twitch.tv/helix/eventsub/subscriptions";
        "https://api.twitch.tv/helix/eventsub/subscriptions?after=c1" ]%string.
Proof. do 2 eexists; split; [|split]; vm_compute; reflexivity. Qed.

(** ** Where the code departs from the specification *)

(** C1: a creation attempt answered with 409 makes [addSubscription] return
    the duplicate-subscription error, and one answered with 500 the
    unhandled-status error; [AddSubscription] returns the empty identifier
    and a nil error in both cases. *)
Theorem C1_AddSubscription_drops_errors :
  let duplicate :=
    Worlds.start {| Worlds.responses := [Worlds.status 409 "{error:Conflict}"];
                    Worlds.tokens := []; Worlds.arrivals := [] |} in
  let failing :=
    Worlds.start {| Worlds.responses := [Worlds.status 500 "{error:Internal Server Error}"];
                    Worlds.tokens := []; Worlds.arrivals := [] |} in
  let condition := Instance.condition_of "215185844" in
  (exists s',
     addSubscription Instance.lib Worlds.scripted Instance.helixURL 3
       "stream.online" "1" condition duplicate
       = Done ((EmptyString, Some (DuplicateSubscriptionError condition "stream.online")), s') /\
     AddSubscription Instance.lib Worlds.scripted Instance.helixURL 3
       "stream.online" "1" condition duplicate
       = Done ((EmptyString, None), s')) /\
  (exists s',
     addSubscription Instance.lib Worlds.scripted Instance.helixURL 3
       "stream.online" "1" condition failing
       = Done ((EmptyString,
                Some (UnhandledStatusError 500 "{error:Internal Server Error}")), s') /\
     AddSubscription Instance.lib Worlds.scripted Instance.helixURL 3
       "stream.online" "1" condition failing
       = Done ((EmptyString, None), s')).
Proof. split; eexists; split; vm_compute; reflexivity. Qed.

(** C2: against a control plane that serves three stream.online
    subscriptions in two pages, [GetSubscriptionsByType "stream.online"]
    first requests the bare path, without the type filter, and then the
    path followed by [&after=c1], again without the filter and without the
    question mark; [GetSubscriptionsByStatus "enabled"] sends the same two
    URLs. *)
Theorem C2_filter_is_not_sent :
  (exists result s',
     GetSubscriptionsByType Instance.lib (Worlds.routed Worlds.three_online) Instance.helixURL 5
       "stream.online" (Worlds.start tt) = Done (result, s') /\
     map url (http_requests (trace s')) =
       [ "https://api.twitch.tv/helix/eventsub/subscriptions";
         "https://api.twitch.tv/helix/eventsub/subscriptions&after=c1" ]%string) /\
  (exists result s',
     GetSubscriptionsByStatus Instance.lib (Worlds.routed Worlds.three_online) Instance.helixURL 5
       "enabled" (Worlds.start tt) = Done (result, s') /\
     map url (http_requests (trace s')) =
       [ "https://api.twitch.tv/helix/eventsub/subscriptions";
         "https://api.twitch.tv/helix/eventsub/subscriptions&after=c1" ]%string).
Proof. split; do 2 eexists; split; vm_compute; reflexivity. Qed.

(** C3: the control plane answers the creation request with 202 and the
    subscription abc123, and no confirmation ever arrives: [addSubscription]
    returns the verification-timeout error that carries abc123, and
    [AddSubscription] returns the empty identifier and a nil error. *)
Theorem C3_timeout_is_dropped :
  let s :=
    Worlds.start {| Worlds.responses := [Worlds.status 202 "{data:[{id:abc123}]}"];
                    Worlds.tokens := []; Worlds.arrivals := [] |} in
  let condition := Instance.condition_of "215185844" in
  exists s',
    addSubscription Instance.lib Worlds.scripted Instance.helixURL 3
      "stream.online" "1" condition s
      = Done ((EmptyString,
               Some (VerificationTimeoutError
                       (Instance.subscription_of "abc123" "stream.online" "215185844"))), s') /\
    AddSubscription Instance.lib Worlds.scripted Instance.helixURL 3
      "stream.online" "1" condition s
      = Done ((EmptyString, None), s').
Proof. eexists; split; vm_compute; reflexivity. Qed.

(** C4: the control plane holds no stream.online subscription and one
    stream.offline subscription, off1, for the same broadcaster.
    [RemoveSubscriptionByType "stream.online"] with that broadcaster's
    condition lists without the type filter, finds off1 and deletes it. *)
Theorem C4_other_type_is_removed :
  exists s',
    RemoveSubscriptionByType Instance.lib (Worlds.routed Worlds.one_offline) Instance.helixURL 5
      "stream.online" (Instance.condition_of "215185844") (Worlds.start tt)
      = Done (None, s') /\
    map (fun r => (method r, url r)) (http_requests (trace s')) =
      [ ("GET", "https://api.twitch.tv/helix/eventsub/subscriptions");
        ("DELETE", "https://api.twitch.tv/helix/eventsub/subscriptions?id=off1") ]%string.
Proof. eexists; split; vm_compute; reflexivity. Qed.

(** ** The signature check *)

(** The signature that [Handler] recomputes is accepted. *)
Lemma verifyHmac_roundtrip secret messageID timestamp body :
  verifyHmac ("sha256=" +:+ generateHmac secret (messageID +:+ timestamp +:+ body))
             ("sha256=" +:+ generateHmac secret (messageID +:+ timestamp +:+ body)) = true.
Proof. unfold verifyHmac. apply String.eqb_refl. Qed.

(** One changed byte in the body, the message id, the timestamp or the
    secret: the signature of the original tuple is rejected. *)
Example verifyHmac_mutations :
  let sign secret messageID timestamp body :=
    ("sha256=" +:+ generateHmac secret (messageID +:+ timestamp +:+ body))%string in
  let original := sign "s3cre7-s3cre7" "msg-1" "2024-03-01T12:00:00Z" "{event:{}}" in
  verifyHmac (sign "s3cre7-s3cre7" "msg-1" "2024-03-01T12:00:00Z" "{event:{]}") original = false /\
  verifyHmac (sign "s3cre7-s3cre7" "msg-2" "2024-03-01T12:00:00Z" "{event:{}}") original = false /\
  verifyHmac (sign "s3cre7-s3cre7" "msg-1" "2024-03-01T12:00:01Z" "{event:{}}") original = false /\
  verifyHmac (sign "s3cre7-s3cre8" "msg-1" "2024-03-01T12:00:00Z" "{event:{}}") original = false.
Proof. vm_compute. repeat split. Qed.

(** * Further properties *)

(** ** The inbound dispatcher, branch by branch *)

Section HandlerBranches.

Context {C : Type} `{HandledEventsChecker C}.
Variable L : GoLib.

(** The part of [Handler] that follows a valid signature and a fresh
    timestamp, once the body is decoded, for the two lifecycle messages. *)
Lemma Handler_lifecycle (c : Client C) now r body p :
  validly_signed c r body ->
  isMessageTooOld L now (Header_Get r twitchMessageTimestamp) = false ->
  json_Unmarshal_payload L body = inr p ->
  (Header_Get r messageType = messageTypeVerification ->
   Handler L c now r =
     (c, [Log "Received valid signature";
          Log ("Got challenge request for " +:+ ID (snd (fst p)));
          GoPublish (ID (snd (fst p))); WriteHeader 200; Write (fst (fst p))])) /\
  (Header_Get r messageType = messageTypeRevocation ->
   Handler L c now r =
     (c, [Log "Received valid signature";
          Log ("Twitch revoked subscription " +:+ ID (snd (fst p)))]
         ++ match OnRevocation c with
            | Some cb => [CallOnRevocation cb (snd (fst p)); WriteHeader 204]
            | None => [WriteHeader 204]
            end)).
Proof.
  intros [Hb Hs] Hfresh Hp. split; intros Ht.
  - unfold Handler. rewrite Hb. cbv zeta. rewrite Hs, Hfresh, Hp, Ht. reflexivity.
  - unfold Handler. rewrite Hb. cbv zeta. rewrite Hs, Hfresh, Hp, Ht. simpl.
    destruct (OnRevocation c); reflexivity.
Qed.

(** Whatever the request, a run changes nothing of the client but the
    handled events, and those by at most one [MarkHandled] of the message
    id. *)
Lemma Handler_client (c : Client C) now r :
  fst (Handler L c now r) = c \/
  fst (Handler L c now r) =
    set_handledEventsChecker c
      (MarkHandled (handledEventsChecker c) (Header_Get r twitchMessageID)).
Proof.
  unfold Handler.
  destruct (Body r); [left; reflexivity|]. cbv zeta.
  destruct (verifyHmac _ _); [|left; reflexivity].
  destruct (isMessageTooOld _ _ _); [left; reflexivity|].
  destruct (json_Unmarshal_payload _ _); [left; reflexivity|].
  destruct (String.eqb _ messageTypeNotification).
  { destruct (IsHandled _ _); [left; reflexivity|].
    destruct (handlers c !! _); right; reflexivity. }
  destruct (String.eqb _ messageTypeVerification); [left; reflexivity|].
  destruct (String.eqb _ messageTypeRevocation); [|left; reflexivity].
  destruct (OnRevocation c); left; reflexivity.
Qed.

(** A handler is started only for a message id that is not marked
    handled. *)
Lemma Handler_handled_no_dispatch (c : Client C) now r :
  IsHandled (handledEventsChecker c) (Header_Get r twitchMessageID) = true ->
  List.filter is_handler_call (snd (Handler L c now r)) = [].
Proof.
  intros Hh. unfold Handler.
  destruct (Body r); [reflexivity|]. cbv zeta.
  destruct (verifyHmac _ _); [|reflexivity].
  destruct (isMessageTooOld _ _ _); [reflexivity|].
  destruct (json_Unmarshal_payload _ _); [reflexivity|].
  destruct (String.eqb _ messageTypeNotification).
  { rewrite Hh. reflexivity. }
  destruct (String.eqb _ messageTypeVerification); [reflexivity|].
  destruct (String.eqb _ messageTypeRevocation); [|reflexivity].
  destruct (OnRevocation c); reflexivity.
Qed.

(** X1: a run of [Handler] that starts a user handler, calls the
    revocation callback, publishes to the channel of verified subscriptions
    or changes the client has a readable body whose signature is valid, a
    timestamp that is not too old and a body that decodes. *)
Theorem X1_Handler_acts_only_on_authentic_requests (c : Client C) now r :
  (List.filter is_user_call (snd (Handler L c now r)) <> [] \/
   List.filter is_publish (snd (Handler L c now r)) <> [] \/
   fst (Handler L c now r) <> c) ->
  exists body p,
    validly_signed c r body /\
    isMessageTooOld L now (Header_Get r twitchMessageTimestamp) = false /\
    json_Unmarshal_payload L body = inr p.
Proof.
  intros Hact. unfold Handler in Hact.
  destruct (Body r) as [err|body] eqn:Hb.
  { cbv beta iota in Hact. cbn [fst snd List.filter is_user_call is_publish] in Hact.
    destruct Hact as [?|[?|?]]; congruence. }
  cbv beta iota zeta in Hact.
  destruct (verifyHmac _ _) eqn:Hs.
  2:{ cbn [fst snd List.filter is_user_call is_publish] in Hact.
      destruct Hact as [?|[?|?]]; congruence. }
  destruct (isMessageTooOld _ _ _) eqn:Hold.
  { cbn [fst snd List.filter is_user_call is_publish app] in Hact.
    destruct Hact as [?|[?|?]]; congruence. }
  destruct (json_Unmarshal_payload L body) as [err|p] eqn:Hp.
  { cbn [fst snd List.filter is_user_call is_publish app] in Hact.
    destruct Hact as [?|[?|?]]; congruence. }
  exists body, p. unfold validly_signed.
  repeat split; first [assumption | reflexivity].
Qed.

(** X2: when the body is readable and the signature header is anything but
    the string sha256= followed by the recomputed code, the run writes
    status 403 and does nothing else. *)
Theorem X2_Handler_rejects_wrong_signature (c : Client C) now r body :
  Body r = inr body ->
  Header_Get r twitchMessageSignature <>
    ("sha256=" +:+ generateHmac (GetWebhookSecret c)
       (Header_Get r twitchMessageID +:+ Header_Get r twitchMessageTimestamp +:+ body))%string ->
  Handler L c now r = (c, [WriteHeader 403]).
Proof.
  intros Hb Hne. unfold Handler. rewrite Hb. cbv zeta. unfold verifyHmac.
  destruct (String.eqb_spec
              ("sha256=" +:+ generateHmac (GetWebhookSecret c)
                 (Header_Get r twitchMessageID +:+ Header_Get r twitchMessageTimestamp +:+ body))
              (Header_Get r twitchMessageSignature)) as [Heq|_]; [|reflexivity].
  exfalso. apply Hne. symmetry. exact Heq.
Qed.

(** X3: a validly signed, fresh verification message whose body decodes is
    answered with status 200 and the challenge as the body; the
    subscription id is published once; no user function is called and the
    client is left as it was. *)
Theorem X3_Handler_verification (c : Client C) now r body p :
  validly_signed c r body ->
  isMessageTooOld L now (Header_Get r twitchMessageTimestamp) = false ->
  json_Unmarshal_payload L body = inr p ->
  Header_Get r messageType = messageTypeVerification ->
  let es := snd (Handler L c now r) in
  fst (Handler L c now r) = c /\
  status_of es = Some 200 /\
  List.filter (fun e => match e with Write _ => true | _ => false end) es
    = [Write (fst (fst p))] /\
  List.filter is_publish es = [GoPublish (ID (snd (fst p)))] /\
  List.filter is_user_call es = [].
Proof.
  intros Hs Hf Hp Ht es. subst es.
  rewrite (proj1 (Handler_lifecycle c now r body p Hs Hf Hp) Ht).
  repeat split.
Qed.

(** X4: a validly signed, fresh revocation message whose body decodes is
    answered with 204; the revocation callback, when one is set, is called
    once with the subscription of the message, and no call is made when
    none is set; nothing is published and the client is left as it was. *)
Theorem X4_Handler_revocation (c : Client C) now r body p :
  validly_signed c r body ->
  isMessageTooOld L now (Header_Get r twitchMessageTimestamp) = false ->
  json_Unmarshal_payload L body = inr p ->
  Header_Get r messageType = messageTypeRevocation ->
  let es := snd (Handler L c now r) in
  fst (Handler L c now r) = c /\
  status_of es = Some 204 /\
  List.filter is_publish es = [] /\
  List.filter is_user_call es =
    match OnRevocation c with
    | Some cb => [CallOnRevocation cb (snd (fst p))]
    | None => []
    end.
Proof.
  intros Hs Hf Hp Ht es. subst es.
  rewrite (proj2 (Handler_lifecycle c now r body p Hs Hf Hp) Ht).
  destruct (OnRevocation c); repeat split.
Qed.

(** X5: a request whose body cannot be read is answered with 500; so is a
    validly signed, fresh request whose body does not decode, whatever its
    message type: its message id is not marked handled. *)
Theorem X5_Handler_internal_errors (c : Client C) now r :
  (forall err, Body r = inl err ->
     fst (Handler L c now r) = c /\ status_of (snd (Handler L c now r)) = Some 500) /\
  (forall body err,
     validly_signed c r body ->
     isMessageTooOld L now (Header_Get r twitchMessageTimestamp) = false ->
     json_Unmarshal_payload L body = inl err ->
     fst (Handler L c now r) = c /\ status_of (snd (Handler L c now r)) = Some 500).
Proof.
  split.
  - intros err Hb. unfold Handler. rewrite Hb. split; reflexivity.
  - intros body err [Hb Hs] Hf Hp. unfold Handler. rewrite Hb. cbv zeta.
    rewrite Hs, Hf, Hp. split; reflexivity.
Qed.

(** X6: whatever the request, a run of [Handler] leaves the token, the
    secrets, the handlers and the revocation callback of the client as they
    were, and the handled events are either untouched or the result of one
    [MarkHandled] of the message id of the request. *)
Theorem X6_Handler_frame (c : Client C) now r :
  let c' := fst (Handler L c now r) in
  token c' = token c /\ clientID c' = clientID c /\ clientSecret c' = clientSecret c /\
  webhookSecret c' = webhookSecret c /\ webhookURL c' = webhookURL c /\
  handlers c' = handlers c /\ OnRevocation c' = OnRevocation c /\
  (handledEventsChecker c' = handledEventsChecker c \/
   handledEventsChecker c' =
     MarkHandled (handledEventsChecker c) (Header_Get r twitchMessageID)).
Proof.
  intros c'. subst c'.
  destruct (Handler_client c now r) as [-> | ->]; simpl; repeat split; auto.
Qed.

End HandlerBranches.

Lemma X1_witness :
  exists body p,
    validly_signed Callbacks.client0 Deliveries.verification body /\
    isMessageTooOld Instance.lib Callbacks.now0
      (Header_Get Deliveries.verification twitchMessageTimestamp) = false /\
    json_Unmarshal_payload Instance.lib body = inr p.
Proof.
  apply (X1_Handler_acts_only_on_authentic_requests Instance.lib Callbacks.client0
           Callbacks.now0 Deliveries.verification).
  right. left. vm_compute. intros Heq. discriminate Heq.
Defined.

Lemma X2_witness :
  Handler Instance.lib Callbacks.client0 Callbacks.now0 Deliveries.short_signature
    = (Callbacks.client0, [WriteHeader 403]).
Proof.
  apply (X2_Handler_rejects_wrong_signature Instance.lib Callbacks.client0 Callbacks.now0
           Deliveries.short_signature Callbacks.notification_body).
  - reflexivity.
  - vm_compute. intros Heq. discriminate Heq.
Defined.

Lemma X3_witness :
  let es := snd (Handler Instance.lib Callbacks.client0 Callbacks.now0 Deliveries.verification) in
  fst (Handler Instance.lib Callbacks.client0 Callbacks.now0 Deliveries.verification)
    = Callbacks.client0 /\
  status_of es = Some 200 /\
  List.filter (fun e => match e with Write _ => true | _ => false end) es
    = [Write "pogchamp-kappa-360noscope-vohiyo"] /\
  List.filter is_publish es = [GoPublish "abc123"] /\
  List.filter is_user_call es = [].
Proof.
  apply (X3_Handler_verification Instance.lib Callbacks.client0 Callbacks.now0
           Deliveries.verification Deliveries.challenge_body
           ("pogchamp-kappa-360noscope-vohiyo"%string,
            Instance.subscription_of "abc123" "stream.online" "215185844", EmptyString)).
  - split; vm_compute; reflexivity.
  - vm_compute; reflexivity.
  - vm_compute; reflexivity.
  - vm_compute; reflexivity.
Defined.

Lemma X4_witness :
  let es := snd (Handler Instance.lib Callbacks.client0 Callbacks.now0 Deliveries.revocation) in
  fst (Handler Instance.lib Callbacks.client0 Callbacks.now0 Deliveries.revocation)
    = Callbacks.client0 /\
  status_of es = Some 204 /\
  List.filter is_publish es = [] /\
  List.filter is_user_call es =
    [CallOnRevocation "onRevocation"
       (Instance.subscription_of "s1" "stream.online" "215185844")].
Proof.
  apply (X4_Handler_revocation Instance.lib Callbacks.client0 Callbacks.now0
           Deliveries.revocation Callbacks.notification_body
           (EmptyString, Instance.subscription_of "s1" "stream.online" "215185844",
            "{broadcaster:215185844}"%string)).
  - split; vm_compute; reflexivity.
  - vm_compute; reflexivity.
  - vm_compute; reflexivity.
  - vm_compute; reflexivity.
Defined.

Lemma X5_witness :
  (fst (Handler Instance.lib Callbacks.client0 Callbacks.now0 Deliveries.unreadable)
     = Callbacks.client0 /\
   status_of (snd (Handler Instance.lib Callbacks.client0 Callbacks.now0 Deliveries.unreadable))
     = Some 500) /\
  (fst (Handler Instance.lib Callbacks.client0 Callbacks.now0 Deliveries.garbled)
     = Callbacks.client0 /\
   status_of (snd (Handler Instance.lib Callbacks.client0 Callbacks.now0 Deliveries.garbled))
     = Some 500).
Proof.
  split.
  - apply (proj1 (X5_Handler_internal_errors Instance.lib Callbacks.client0 Callbacks.now0
                    Deliveries.unreadable) "unexpected EOF"%string).
    reflexivity.
  - apply (proj2 (X5_Handler_internal_errors Instance.lib Callbacks.client0 Callbacks.now0
                    Deliveries.garbled) "not json"%string
             "invalid character looking for beginning of value"%string).
    + split; vm_compute; reflexivity.
    + vm_compute; reflexivity.
    + vm_compute; reflexivity.
Defined.

(** ** The handled events *)

(** X7: for the default checker, an id is handled after [MarkHandled]
    exactly when it was handled before or is the id just marked; a new
    checker handles no id; and each [MarkHandled] makes the list one entry
    longer, also for an id that is already in it. *)
Theorem X7_DefaultHandledEventsChecker_marks (d : DefaultHandledEventsChecker) a b :
  IsHandled (MarkHandled d a) b = IsHandled d b || String.eqb b a /\
  IsHandled NewDefaultHandledEventsChecker b = false /\
  length (handledEvents (MarkHandled d a)) = S (length (handledEvents d)).
Proof.
  split; [|split].
  - simpl. unfold slices_Contains. rewrite existsb_app. simpl.
    rewrite orb_false_r. reflexivity.
  - reflexivity.
  - simpl. rewrite length_app. simpl. lia.
Qed.

Section Replay.

Variable L : GoLib.

Lemma Handler_keeps_handled (c : Client DefaultHandledEventsChecker) now r id :
  IsHandled (handledEventsChecker c) id = true ->
  IsHandled (handledEventsChecker (fst (Handler L c now r))) id = true.
Proof.
  intros Hh. destruct (Handler_client L c now r) as [-> | ->]; [exact Hh|].
  simpl. unfold slices_Contains. rewrite existsb_app. simpl in Hh.
  unfold slices_Contains in Hh. rewrite Hh. reflexivity.
Qed.

Lemma Handler_sequence_keeps_handled (c : Client DefaultHandledEventsChecker) rs id :
  IsHandled (handledEventsChecker c) id = true ->
  IsHandled (handledEventsChecker (fst (Handler_sequence L c rs))) id = true.
Proof.
  revert c. induction rs as [|[now r] rest IH]; intros c Hh; [exact Hh|].
  simpl. pose proof (Handler_keeps_handled c now r id Hh) as H1.
  destruct (Handler L c now r) as [c1 es1]. simpl in H1.
  specialize (IH c1 H1). destruct (Handler_sequence L c1 rest) as [c2 es2].
  exact IH.
Qed.

(** X8: once a validly signed, fresh notification whose body decodes has
    been handled, a later delivery that carries the same message id starts
    no handler, whatever was delivered in between, whatever its own
    signature, timestamp and body are, and whenever it arrives (default
    checker, deliveries handled one after the other). *)
Theorem X8_no_second_dispatch
    (c : Client DefaultHandledEventsChecker) now1 r1 body p between now2 r2 :
  validly_signed c r1 body ->
  isMessageTooOld L now1 (Header_Get r1 twitchMessageTimestamp) = false ->
  json_Unmarshal_payload L body = inr p ->
  Header_Get r1 messageType = messageTypeNotification ->
  Header_Get r2 twitchMessageID = Header_Get r1 twitchMessageID ->
  let c1 := fst (Handler L c now1 r1) in
  let c2 := fst (Handler_sequence L c1 between) in
  List.filter is_handler_call (snd (Handler L c2 now2 r2)) = [].
Proof.
  intros Hs Hf Hp Ht Hid c1 c2.
  apply Handler_handled_no_dispatch. rewrite Hid.
  apply Handler_sequence_keeps_handled. subst c1.
  rewrite (Handler_notification L c now1 r1 body p Hs Hf Hp Ht). cbv zeta.
  destruct (IsHandled (handledEventsChecker c) (Header_Get r1 twitchMessageID)) eqn:Hh.
  - exact Hh.
  - simpl. apply slices_Contains_snoc.
Qed.

(** X9: a handler registered with [On] is the one a notification of that
    event type is dispatched to, in place of any handler registered for the
    type before; the handlers of the other types are kept. *)
Theorem X9_On_then_Handler
    (c : Client DefaultHandledEventsChecker) event handler now r body p :
  validly_signed c r body ->
  isMessageTooOld L now (Header_Get r twitchMessageTimestamp) = false ->
  json_Unmarshal_payload L body = inr p ->
  Header_Get r messageType = messageTypeNotification ->
  IsHandled (handledEventsChecker c) (Header_Get r twitchMessageID) = false ->
  (Type_ (snd (fst p)) = event ->
   List.filter is_user_call (snd (Handler L (On c event handler) now r))
     = [GoHandler handler (snd p)]) /\
  (Type_ (snd (fst p)) <> event ->
   List.filter is_user_call (snd (Handler L (On c event handler) now r))
     = List.filter is_user_call (snd (Handler L c now r))).
Proof.
  intros Hs Hf Hp Ht Hh.
  assert (Hs' : validly_signed (On c event handler) r body) by exact Hs.
  rewrite (Handler_notification L (On c event handler) now r body p Hs' Hf Hp Ht).
  rewrite (Handler_notification L c now r body p Hs Hf Hp Ht).
  cbv zeta. cbn [On handledEventsChecker handlers]. rewrite Hh.
  cbn [snd]. rewrite !List.filter_app. cbn [List.filter is_user_call app].
  split.
  - intros ->. rewrite lookup_insert_eq. reflexivity.
  - intros Hne. rewrite lookup_insert_ne by congruence. reflexivity.
Qed.

End Replay.

Lemma X8_witness :
  List.filter is_handler_call
    (snd (Handler Instance.lib
            (fst (Handler_sequence Instance.lib
                    (fst (Handler Instance.lib Callbacks.client0 Callbacks.now0 Callbacks.fresh))
                    [(Callbacks.now0, Deliveries.verification);
                     (Callbacks.now0, Deliveries.revocation)]))
            (Callbacks.now0 + Second) Callbacks.fresh)) = [].
Proof.
  apply (X8_no_second_dispatch Instance.lib Callbacks.client0 Callbacks.now0 Callbacks.fresh
           Callbacks.notification_body
           (EmptyString, Instance.subscription_of "s1" "stream.online" "215185844",
            "{broadcaster:215185844}"%string)).
  - split; vm_compute; reflexivity.
  - vm_compute; reflexivity.
  - vm_compute; reflexivity.
  - vm_compute; reflexivity.
  - reflexivity.
Defined.

Lemma X9_witness :
  List.filter is_user_call
    (snd (Handler Instance.lib (On Callbacks.client0 "stream.online" "replacement")
            Callbacks.now0 Callbacks.fresh))
    = [GoHandler "replacement" "{broadcaster:215185844}"].
Proof.
  apply (proj1 (X9_On_then_Handler Instance.lib Callbacks.client0 "stream.online" "replacement"
                  Callbacks.now0 Callbacks.fresh Callbacks.notification_body
                  (EmptyString, Instance.subscription_of "s1" "stream.online" "215185844",
                   "{broadcaster:215185844}"%string)
                  ltac:(split; vm_compute; reflexivity) ltac:(vm_compute; reflexivity)
                  ltac:(vm_compute; reflexivity) ltac:(vm_compute; reflexivity)
                  ltac:(vm_compute; reflexivity))).
  reflexivity.
Defined.

(** ** verify.go *)

(** X10: [isMessageTooOld] answers true exactly when the timestamp parses
    to an instant that lies more than ten minutes before the clock reading:
    ten minutes to the nanosecond is not too old, a timestamp in the future
    is not too old, and the saturation of [time.Since] changes nothing. *)
Theorem X10_isMessageTooOld_exact (L : GoLib) now timestamp :
  isMessageTooOld L now timestamp = true <->
  exists t, time_Parse_RFC3339 L timestamp = Some t /\ 10 * Minute < now - t.
Proof.
  unfold isMessageTooOld. destruct (time_Parse_RFC3339 L timestamp) as [t|].
  - rewrite time_Since_gt_ten_minutes. rewrite Z.ltb_lt. split.
    + intros Hlt. exists t. split; [reflexivity|exact Hlt].
    + intros (t' & [= <-] & Hlt). exact Hlt.
  - split; [discriminate|]. intros (t & Ht & _). discriminate.
Qed.

Lemma SHA256_sum_bytes msg :
  length (SHA256.sum msg) = 32%nat /\ Forall (fun b => 0 <= b < 256) (SHA256.sum msg).
Proof.
  unfold SHA256.sum. cbv zeta.
  generalize (fold_left SHA256.compress
                (SHA256.blocks (Nat.div (length (SHA256.pad msg)) 64) (SHA256.pad msg))
                SHA256.init) as d.
  intros d. cbn [flat_map SHA256.bytes_of_word app]. split; [reflexivity|].
  repeat (apply Forall_cons; split; [apply Z.mod_pos_bound; lia|]).
  apply Forall_nil. exact I.
Qed.

Lemma hex_digit_is_hex n : 0 <= n < 16 -> is_hex_digit (hex_digit n) = true.
Proof.
  intros Hn. rewrite <- (Z2Nat.id n) by lia.
  assert (Hlt : (Z.to_nat n < 16)%nat) by lia.
  revert Hlt. generalize (Z.to_nat n) as m. intros m Hlt.
  do 16 (destruct m as [|m]; [reflexivity|]). lia.
Qed.

Lemma hex_EncodeToString_shape bs :
  Forall (fun b => 0 <= b < 256) bs ->
  String.length (hex_EncodeToString bs) = (2 * length bs)%nat /\
  forallb is_hex_digit (list_ascii_of_string (hex_EncodeToString bs)) = true.
Proof.
  induction 1 as [|b rest Hb _ [IHlen IHhex]]; [split; reflexivity|].
  cbn [hex_EncodeToString String.length list_ascii_of_string forallb length].
  rewrite IHlen, IHhex. split; [lia|].
  rewrite !hex_digit_is_hex; [reflexivity| |].
  - apply Z.mod_pos_bound. lia.
  - split; [apply Z.div_pos; lia|apply Z.div_lt_upper_bound; lia].
Qed.

Lemma generateHmac_shape secret message :
  String.length (generateHmac secret message) = 64%nat /\
  forallb is_hex_digit (list_ascii_of_string (generateHmac secret message)) = true.
Proof.
  unfold generateHmac, HMAC.sum. cbv zeta.
  match goal with
  | |- context [hex_EncodeToString (SHA256.sum ?m)] =>
      destruct (SHA256_sum_bytes m) as [Hlen Hbytes];
      destruct (hex_EncodeToString_shape (SHA256.sum m) Hbytes) as [Hl Hh];
      rewrite Hlen in Hl
  end.
  split; [exact Hl|exact Hh].
Qed.

(** X11: whatever the secret and the message, [generateHmac] returns 64
    characters, each of them a lowercase hexadecimal digit. *)
Theorem X11_generateHmac_is_64_hex_digits secret message :
  String.length (generateHmac secret message) = 64%nat /\
  forallb is_hex_digit (list_ascii_of_string (generateHmac secret message)) = true.
Proof. exact (generateHmac_shape secret message). Qed.

Lemma length_append (a b : string) :
  String.length (a +:+ b) = (String.length a + String.length b)%nat.
Proof. induction a as [|ch a IH]; [reflexivity|]. simpl. f_equal. exact IH. Qed.

(** X12: a request whose signature header is not 71 bytes long (the seven
    of sha256= and 64 digits) is answered with 403 and nothing else is
    done, whatever the secret, the headers and the body are. *)
Theorem X12_Handler_rejects_by_length {C : Type} `{HandledEventsChecker C}
    (L : GoLib) (c : Client C) now r body :
  Body r = inr body ->
  String.length (Header_Get r twitchMessageSignature) <> 71%nat ->
  Handler L c now r = (c, [WriteHeader 403]).
Proof.
  intros Hb Hlen. unfold Handler. rewrite Hb. cbv zeta. unfold verifyHmac.
  match goal with
  | |- context [String.eqb ?e ?h] => destruct (String.eqb_spec e h) as [Heq|_]
  end; [|reflexivity].
  exfalso. apply Hlen. rewrite <- Heq. rewrite length_append.
  rewrite (proj1 (generateHmac_shape _ _)). reflexivity.
Qed.

Lemma X12_witness :
  Handler Instance.lib Callbacks.client0 Callbacks.now0 Deliveries.short_signature
    = (Callbacks.client0, [WriteHeader 403]).
Proof.
  apply (X12_Handler_rejects_by_length Instance.lib Callbacks.client0 Callbacks.now0
           Deliveries.short_signature Callbacks.notification_body).
  - reflexivity.
  - vm_compute. intros Heq. discriminate Heq.
Defined.

Lemma bytes_of_string_append (a b : string) :
  bytes_of_string (a +:+ b) = bytes_of_string a ++ bytes_of_string b.
Proof.
  unfold bytes_of_string. induction a as [|ch a IH]; [reflexivity|].
  simpl. f_equal. exact IH.
Qed.

Lemma bytes_of_string_length (a : string) :
  length (bytes_of_string a) = String.length a.
Proof.
  unfold bytes_of_string. induction a as [|ch a IH]; [reflexivity|].
  simpl. f_equal. exact IH.
Qed.

Lemma prepare_key_zero key :
  (length key < 64)%nat -> HMAC.prepare_key (key ++ [0]) = HMAC.prepare_key key.
Proof.
  intros Hlen. unfold HMAC.prepare_key, HMAC.block_size. cbv zeta.
  rewrite length_app. cbn [length].
  destruct (Nat.ltb_spec 64 (length key + 1)) as [?|_]; [lia|].
  destruct (Nat.ltb_spec 64 (length key)) as [?|_]; [lia|].
  rewrite length_app. cbn [length]. rewrite <- app_assoc. f_equal.
  replace (64 - length key)%nat with (S (64 - (length key + 1))) by lia.
  reflexivity.
Qed.

(** X13: a secret shorter than 64 bytes and the same secret followed by a
    zero byte give the same code for every message: the key is padded with
    zero bytes before it is used. *)
Theorem X13_generateHmac_zero_padded_secret secret message :
  (String.length secret < 64)%nat ->
  generateHmac (secret +:+ NUL) message = generateHmac secret message.
Proof.
  intros Hlen. unfold generateHmac, HMAC.sum. cbv zeta.
  rewrite bytes_of_string_append.
  change (bytes_of_string NUL) with [0].
  rewrite prepare_key_zero; [reflexivity|].
  rewrite bytes_of_string_length. exact Hlen.
Qed.

Lemma X13_witness :
  generateHmac ("s3cre7-s3cre7" +:+ NUL) "msg-1" = generateHmac "s3cre7-s3cre7" "msg-1".
Proof.
  apply (X13_generateHmac_zero_padded_secret "s3cre7-s3cre7" "msg-1").
  vm_compute. lia.
Defined.

Lemma string_append_assoc (a b c : string) : (a +:+ b) +:+ c = a +:+ (b +:+ c).
Proof.
  induction a as [|ch a IH]; [reflexivity|].
  change (String ch ((a +:+ b) +:+ c) = String ch (a +:+ (b +:+ c))).
  rewrite IH. reflexivity.
Qed.

(** The signed message is the plain concatenation of the message id, the
    timestamp and the body: a request that splits the same bytes otherwise
    between the two headers carries the same valid signature. *)
Lemma validly_signed_shift {C : Type} (c : Client C) r1 r2 body :
  validly_signed c r1 body ->
  Body r2 = inr body ->
  Header_Get r2 twitchMessageSignature = Header_Get r1 twitchMessageSignature ->
  (Header_Get r2 twitchMessageID +:+ Header_Get r2 twitchMessageTimestamp
   = Header_Get r1 twitchMessageID +:+ Header_Get r1 twitchMessageTimestamp)%string ->
  validly_signed c r2 body.
Proof.
  intros [_ Hs] Hb Hsig Hcat. split; [exact Hb|].
  rewrite Hsig, <- string_append_assoc, Hcat, string_append_assoc. exact Hs.
Qed.

(** X14: the signature covers the concatenation of message id, timestamp
    and body without separators. A request that carries the body and the
    signature of a validly signed one, and whose message id followed by its
    timestamp spells the same bytes, is validly signed too; when its
    timestamp no longer parses and its message id is not marked handled, a
    notification is dispatched to the registered handler, however old the
    original message is. *)
Theorem X14_signature_covers_the_concatenation {C : Type} `{HandledEventsChecker C}
    (L : GoLib) (c : Client C) now r1 r2 body :
  validly_signed c r1 body ->
  Body r2 = inr body ->
  Header_Get r2 twitchMessageSignature = Header_Get r1 twitchMessageSignature ->
  (Header_Get r2 twitchMessageID +:+ Header_Get r2 twitchMessageTimestamp
   = Header_Get r1 twitchMessageID +:+ Header_Get r1 twitchMessageTimestamp)%string ->
  validly_signed c r2 body /\
  (forall p handler,
     time_Parse_RFC3339 L (Header_Get r2 twitchMessageTimestamp) = None ->
     json_Unmarshal_payload L body = inr p ->
     Header_Get r2 messageType = messageTypeNotification ->
     IsHandled (handledEventsChecker c) (Header_Get r2 twitchMessageID) = false ->
     handlers c !! Type_ (snd (fst p)) = Some handler ->
     List.filter is_user_call (snd (Handler L c now r2)) = [GoHandler handler (snd p)]).
Proof.
  intros Hs Hb Hsig Hcat.
  pose proof (validly_signed_shift c r1 r2 body Hs Hb Hsig Hcat) as Hs2.
  split; [exact Hs2|].
  intros p handler Hparse Hp Ht Hh Hl.
  rewrite (Handler_notification L c now r2 body p Hs2
             (isMessageTooOld_unparseable L now _ Hparse) Hp Ht).
  cbv zeta. rewrite Hh, Hl. reflexivity.
Qed.

Lemma X14_witness :
  validly_signed Callbacks.client0 Deliveries.shifted Callbacks.notification_body /\
  List.filter is_user_call
    (snd (Handler Instance.lib Callbacks.client0 Callbacks.now0 Deliveries.shifted))
    = [GoHandler "onStreamOnline" "{broadcaster:215185844}"] /\
  List.filter is_user_call
    (snd (Handler Instance.lib Callbacks.client0 Callbacks.now0 Callbacks.stale)) = [].
Proof.
  destruct (X14_signature_covers_the_concatenation Instance.lib Callbacks.client0
              Callbacks.now0 Callbacks.stale Deliveries.shifted Callbacks.notification_body
              ltac:(split; vm_compute; reflexivity) eq_refl
              ltac:(vm_compute; reflexivity) ltac:(vm_compute; reflexivity))
    as [Hsigned Hforward].
  split; [exact Hsigned|]. split.
  - apply (Hforward (EmptyString, Instance.subscription_of "s1" "stream.online" "215185844",
                     "{broadcaster:215185844}"%string));
      vm_compute; reflexivity.
  - vm_compute. reflexivity.
Defined.

(** ** The control-plane client, further *)

Section ControlPlane.

Context {C W : Type}.
Variable L : GoLib.
Variable E : World W.
Variable helixURL : string.

Ltac run :=
  unfold genericRequest, do_request, generateToken, log;
  unfold emit, interact, get_client, assign_token, panic, out_of_fuel;
  unfold mbind, M_bind, mret, M_ret; simpl.

(** What [addSubscription] returns once the response is read, for a status
    other than 202. *)
Lemma addSubscription_refused
    fuel Type_ version condition (s : State C W) reqBody res w body :
  let c := client s in
  json_Marshal_request L
    {| req_Type := Type_; req_Version := version; req_Condition := condition;
       req_Transport := {| Method := "webhook"; Callback := webhookURL c;
                           Secret := webhookSecret c |} |} = inr reqBody ->
  http_NewRequest_error L "POST" (helixURL +:+ "/eventsub/subscriptions") = None ->
  httpClient_Do E (create_request helixURL c reqBody) (world s) = (inr res, w) ->
  ResponseBody res = inr body ->
  StatusCode res <> 202 ->
  addSubscription L E helixURL fuel Type_ version condition s =
    Done ((EmptyString,
           Some (if StatusCode res =? 409 then DuplicateSubscriptionError condition Type_
                 else if StatusCode res =? 401 then UnauthorizedError
                 else UnhandledStatusError (StatusCode res) body)),
          {| client := c; world := w;
             trace := trace s ++ [AHttp (create_request helixURL c reqBody)] |}).
Proof.
  intros c Hm Hn Hdo Hb H202.
  unfold addSubscription, create_request in *. run. fold c.
  simpl in Hm. rewrite Hm. simpl in Hn. rewrite Hn. run.
  simpl in Hdo. rewrite Hdo. simpl. rewrite Hb.
  destruct (StatusCode res =? 409); [reflexivity|].
  destruct (StatusCode res =? 401); [reflexivity|].
  destruct (Z.eqb_spec (StatusCode res) 202); [contradiction|]. reflexivity.
Qed.

(** X15: when the creation request is answered with a readable body and a
    status other than 202, [addSubscription] returns after that one request,
    without waiting on the channel: 409 gives the duplicate-subscription
    error with the type and the condition of the call, 401 the unauthorized
    error, any other status the unhandled-status error with the status and
    the body. *)
Theorem X15_addSubscription_refused
    fuel Type_ version condition (s : State C W) reqBody res w body :
  let c := client s in
  json_Marshal_request L
    {| req_Type := Type_; req_Version := version; req_Condition := condition;
       req_Transport := {| Method := "webhook"; Callback := webhookURL c;
                           Secret := webhookSecret c |} |} = inr reqBody ->
  http_NewRequest_error L "POST" (helixURL +:+ "/eventsub/subscriptions") = None ->
  httpClient_Do E (create_request helixURL c reqBody) (world s) = (inr res, w) ->
  ResponseBody res = inr body ->
  StatusCode res <> 202 ->
  exists err,
    addSubscription L E helixURL fuel Type_ version condition s =
      Done ((EmptyString, Some err),
            {| client := c; world := w;
               trace := trace s ++ [AHttp (create_request helixURL c reqBody)] |}) /\
    (StatusCode res = 409 -> err = DuplicateSubscriptionError condition Type_) /\
    (StatusCode res = 401 -> err = UnauthorizedError) /\
    (StatusCode res <> 409 -> StatusCode res <> 401 ->
     err = UnhandledStatusError (StatusCode res) body).
Proof.
  intros c Hm Hn Hdo Hb H202. eexists. split.
  - exact (addSubscription_refused fuel Type_ version condition s reqBody res w body
             Hm Hn Hdo Hb H202).
  - destruct (Z.eqb_spec (StatusCode res) 409) as [E409|N409].
    { repeat split; intros; try reflexivity; lia. }
    destruct (Z.eqb_spec (StatusCode res) 401) as [E401|N401].
    { repeat split; intros; try reflexivity; lia. }
    repeat split; intros; try reflexivity; lia.
Qed.

(** X16: [addSubscription] returns an internal error, its identifier
    empty, when the request cannot be serialized or built (nothing is sent
    then), when the transport fails, and when the body of the response
    cannot be read, whatever the status of that response is. *)
Theorem X16_addSubscription_internal_errors
    fuel Type_ version condition (s : State C W) :
  let c := client s in
  let request :=
    {| req_Type := Type_; req_Version := version; req_Condition := condition;
       req_Transport := {| Method := "webhook"; Callback := webhookURL c;
                           Secret := webhookSecret c |} |} in
  (forall err, json_Marshal_request L request = inl err ->
     addSubscription L E helixURL fuel Type_ version condition s =
       Done ((EmptyString,
              Some (InternalError "Could not serialize request body to JSON" (Some err))), s)) /\
  (forall reqBody err, json_Marshal_request L request = inr reqBody ->
     http_NewRequest_error L "POST" (helixURL +:+ "/eventsub/subscriptions") = Some err ->
     addSubscription L E helixURL fuel Type_ version condition s =
       Done ((EmptyString, Some (InternalError "Could not create request" (Some err))), s)) /\
  (forall reqBody, json_Marshal_request L request = inr reqBody ->
     http_NewRequest_error L "POST" (helixURL +:+ "/eventsub/subscriptions") = None ->
     let sent := {| client := c; world := snd (httpClient_Do E (create_request helixURL c reqBody)
                                                 (world s));
                    trace := trace s ++ [AHttp (create_request helixURL c reqBody)] |} in
     (forall err, fst (httpClient_Do E (create_request helixURL c reqBody) (world s)) = inl err ->
        addSubscription L E helixURL fuel Type_ version condition s =
          Done ((EmptyString, Some (InternalError "Could not send request" (Some err))), sent)) /\
     (forall res err,
        fst (httpClient_Do E (create_request helixURL c reqBody) (world s)) = inr res ->
        ResponseBody res = inl err ->
        addSubscription L E helixURL fuel Type_ version condition s =
          Done ((EmptyString, Some (InternalError "Could not read response body" (Some err))),
                sent))).
Proof.
  intros c request. subst request. split; [|split].
  - intros err Hm. unfold addSubscription. run. fold c. rewrite Hm. reflexivity.
  - intros reqBody err Hm Hn. unfold addSubscription. run. fold c. rewrite Hm.
    simpl in Hn. rewrite Hn. reflexivity.
  - intros reqBody Hm Hn sent. subst sent. split.
    + intros err Hdo. unfold addSubscription, create_request in *. run. fold c.
      rewrite Hm. simpl in Hn. rewrite Hn. run.
      simpl in Hdo. destruct (httpClient_Do E _ (world s)) as [r w]. simpl in Hdo. subst r.
      reflexivity.
    + intros res err Hdo Hb. unfold addSubscription, create_request in *. run. fold c.
      rewrite Hm. simpl in Hn. rewrite Hn. run.
      simpl in Hdo. destruct (httpClient_Do E _ (world s)) as [r w]. simpl in Hdo. subst r.
      simpl. rewrite Hb. reflexivity.
Qed.

(** The confirmation loop reports success only for the identifier it was
    waiting for and after receiving it; with an error the identifier is
    empty. *)
Lemma awaitConfirmation_result fuel subscription (s s' : State C W) id err :
  awaitConfirmation E fuel subscription s = Done ((id, err), s') ->
  (err = None -> id = ID subscription /\ In (ASelect (Received id)) (trace s')) /\
  (err <> None -> id = EmptyString /\ err = Some (VerificationTimeoutError subscription)).
Proof.
  revert s. induction fuel as [|fuel IH]; intros s; [discriminate|].
  simpl. run.
  destruct (select_recv E (world s)) as [[id'|] w]; simpl.
  - destruct (String.eqb_spec id' (ID subscription)) as [Heq|Hne].
    + intros [= <- <- <-]. split; [|congruence]. intros _. split; [exact Heq|].
      simpl. rewrite !in_app_iff. left. right. left. reflexivity.
    + simpl. destruct (chan_send E id' w) as [[|] w']; simpl; [|discriminate].
      apply IH.
  - intros [= <- <- <-]. split; [discriminate|]. intros _. split; reflexivity.
Qed.

(** X17: when [addSubscription] returns without error, the identifier it
    returns has been received from the channel of verified subscriptions
    during the call; when it returns an error, the identifier is empty. *)
Theorem X17_addSubscription_result
    fuel Type_ version condition (s s' : State C W) id err :
  addSubscription L E helixURL fuel Type_ version condition s = Done ((id, err), s') ->
  (err = None -> In (ASelect (Received id)) (trace s')) /\
  (err <> None -> id = EmptyString).
Proof.
  unfold addSubscription. run.
  destruct (json_Marshal_request L _);
    [intros [= <- <- <-]; split; [discriminate|reflexivity]|].
  destruct (http_NewRequest_error L _ _);
    [intros [= <- <- <-]; split; [discriminate|reflexivity]|]. run.
  destruct (httpClient_Do E _ _) as [[e|res] w]; simpl;
    [intros [= <- <- <-]; split; [discriminate|reflexivity]|].
  destruct (ResponseBody res);
    [intros [= <- <- <-]; split; [discriminate|reflexivity]|].
  destruct (StatusCode res =? 409);
    [intros [= <- <- <-]; split; [discriminate|reflexivity]|].
  destruct (StatusCode res =? 401);
    [intros [= <- <- <-]; split; [discriminate|reflexivity]|].
  destruct (StatusCode res =? 202); simpl;
    [|intros [= <- <- <-]; split; [discriminate|reflexivity]].
  destruct (json_Unmarshal_data L _) as [e|Data];
    [intros [= <- <- <-]; split; [discriminate|reflexivity]|].
  destruct Data as [|subscription rest]; simpl;
    [intros [= <- <- <-]; split; [discriminate|reflexivity]|].
  intros Hrun. destruct (awaitConfirmation_result _ _ _ _ _ _ Hrun) as [Hok Herr].
  split.
  - intros Hnone. exact (proj2 (Hok Hnone)).
  - intros Hsome. exact (proj1 (Herr Hsome)).
Qed.

(** X18: when the first attempt of [AddSubscription] ends with the
    unauthorized error, the token endpoint is asked once. If it issues a
    token, the token is stored and the result of the call is the result of
    a second attempt made with it, errors included. If it fails, the call
    returns the empty identifier and the error of the endpoint, the token
    is left as it was and no second attempt is made. *)
Theorem X18_AddSubscription_unauthorized
    fuel Type_ version condition (s s1 : State C W) id :
  addSubscription L E helixURL fuel Type_ version condition s
    = Done ((id, Some UnauthorizedError), s1) ->
  let c1 := client s1 in
  let asked := trace s1 ++ [ALog "Token invalid, generating a new one";
                            AGenerateToken (clientID c1) (clientSecret c1)] in
  (forall token w2,
     token_endpoint E (clientID c1) (clientSecret c1) (world s1) = (inr token, w2) ->
     AddSubscription L E helixURL fuel Type_ version condition s =
       addSubscription L E helixURL fuel Type_ version condition
         {| client := set_token c1 token; world := w2; trace := asked |}) /\
  (forall err w2,
     token_endpoint E (clientID c1) (clientSecret c1) (world s1) = (inl err, w2) ->
     AddSubscription L E helixURL fuel Type_ version condition s =
       Done ((EmptyString, Some err), {| client := c1; world := w2; trace := asked |})).
Proof.
  intros Hrun c1 asked. subst asked. split.
  - intros token w2 Htok. unfold AddSubscription. unfold mbind at 1. unfold M_bind at 1.
    rewrite Hrun. cbn [errors_As_Unauthorized]. run. fold c1. rewrite Htok. simpl.
    rewrite <- app_assoc. reflexivity.
  - intros err w2 Htok. unfold AddSubscription. unfold mbind at 1. unfold M_bind at 1.
    rewrite Hrun. cbn [errors_As_Unauthorized]. run. fold c1. rewrite Htok. simpl.
    rewrite <- app_assoc. reflexivity.
Qed.

(** X19: [RemoveSubscription] returns an internal error after one request
    when the transport fails; and when the first delete call is answered
    with 401 and the token endpoint fails, it returns the error of the
    endpoint, not the unauthorized error: the token is left as it was and no
    second delete call is made. *)
Theorem X19_RemoveSubscription_failures id (s : State C W) :
  let c := client s in
  let sent w := {| client := c; world := w;
                   trace := trace s ++ [AHttp (delete_request helixURL c id)] |} in
  (forall err w1,
     httpClient_Do E (delete_request helixURL c id) (world s) = (inl err, w1) ->
     RemoveSubscription E helixURL id s =
       Done (Some (InternalError "Could not make request" (Some err)), sent w1)) /\
  (forall res w1 err w2,
     httpClient_Do E (delete_request helixURL c id) (world s) = (inr res, w1) ->
     StatusCode res = 401 ->
     token_endpoint E (clientID c) (clientSecret c) w1 = (inl err, w2) ->
     RemoveSubscription E helixURL id s =
       Done (Some err,
             {| client := c; world := w2;
                trace := trace s ++ [AHttp (delete_request helixURL c id);
                                     ALog "Token invalid, generating a new one";
                                     AGenerateToken (clientID c) (clientSecret c)] |})).
Proof.
  intros c sent. subst sent. split.
  - intros err w1 Hdo. unfold RemoveSubscription, removeSubscription, delete_request in *.
    run. simpl in Hdo. fold c. fold c in Hdo. rewrite Hdo. reflexivity.
  - intros res w1 err w2 Hdo H401 Htok.
    destruct (removeSubscription_run E helixURL id s res w1 Hdo) as (e1 & Hrun & Hout & _).
    assert (He1 : e1 = Some UnauthorizedError).
    { destruct Hout as (_ & _ & H & _). exact (H H401). }
    subst e1. unfold RemoveSubscription. unfold mbind at 1. unfold M_bind at 1.
    rewrite Hrun. cbn [errors_As_Unauthorized]. run. fold c. rewrite Htok. simpl.
    rewrite <- !app_assoc. reflexivity.
Qed.

(** X20: a mismatched confirmation that no other receiver takes back
    blocks the call for ever: when the creation is accepted and the first
    value received from the channel is not the identifier of the new
    subscription, [AddSubscription] puts it back on the channel, and if
    nobody receives it the call never returns, timeout or not. *)
Theorem X20_AddSubscription_blocks
    fuel Type_ version condition (s : State C W) reqBody res w body subscription rest
    id w1 w2 :
  let c := client s in
  json_Marshal_request L
    {| req_Type := Type_; req_Version := version; req_Condition := condition;
       req_Transport := {| Method := "webhook"; Callback := webhookURL c;
                           Secret := webhookSecret c |} |} = inr reqBody ->
  http_NewRequest_error L "POST" (helixURL +:+ "/eventsub/subscriptions") = None ->
  httpClient_Do E (create_request helixURL c reqBody) (world s) = (inr res, w) ->
  StatusCode res = 202 ->
  ResponseBody res = inr body ->
  json_Unmarshal_data L body = inr (subscription :: rest) ->
  select_recv E w = (Received id, w1) ->
  id <> ID subscription ->
  chan_send E id w1 = (false, w2) ->
  AddSubscription L E helixURL (S fuel) Type_ version condition s = Blocked.
Proof.
  intros c Hm Hn Hdo H202 Hb Hd Hsel Hne Hsend.
  unfold AddSubscription. unfold mbind at 1. unfold M_bind at 1.
  rewrite (addSubscription_accepted L E helixURL (S fuel) Type_ version condition s
             reqBody res w body subscription rest Hm Hn Hdo H202 Hb Hd).
  simpl. run. rewrite Hsel. simpl.
  apply String.eqb_neq in Hne. rewrite Hne. simpl. rewrite Hsend. reflexivity.
Qed.

Lemma genericRequest_run method path (s : State C W) :
  genericRequest E helixURL method path s =
    let request := {| method := method; url := helixURL +:+ path;
                      header := [("Client-ID", clientID (client s));
                                 ("Authorization", "Bearer " +:+ token (client s))];
                      body := None |} in
    Done (fst (httpClient_Do E request (world s)),
          {| client := client s; world := snd (httpClient_Do E request (world s));
             trace := trace s ++ [AHttp request] |}).
Proof.
  run. destruct (httpClient_Do E _ (world s)) as [r w]. reflexivity.
Qed.

(** One turn of the loop of [fetchSubscriptions] on a page that is served
    with status 200. *)
Lemma fetchPages_page fuel urlParams page cursor acc (s : State C W) res w body Data Cursor :
  httpClient_Do E (list_request helixURL (client s) (page_params urlParams cursor)) (world s)
    = (inr res, w) ->
  StatusCode res = 200 ->
  ResponseBody res = inr body ->
  json_Unmarshal_page L body = inr (Data, Cursor) ->
  let s1 := {| client := client s; world := w;
               trace := trace s ++
                 [ALog ("Fetching page " +:+ pretty page +:+ " of subscriptions");
                  AHttp (list_request helixURL (client s) (page_params urlParams cursor))] |} in
  fetchPages L E helixURL (S fuel) urlParams page cursor acc s =
    if String.eqb Cursor EmptyString then Done ((acc ++ Data, None), s1)
    else fetchPages L E helixURL fuel urlParams (int_wrap (page + 1)) Cursor (acc ++ Data) s1.
Proof.
  intros Hdo H200 Hb Hp s1. subst s1.
  cbn [fetchPages]. unfold log, emit. unfold mbind at 1. unfold M_bind at 1.
  cbv zeta. unfold mbind at 1. unfold M_bind at 1.
  rewrite genericRequest_run. cbv zeta.
  cbn [client world trace]. unfold list_request in Hdo.
  rewrite Hdo. cbn [fst snd].
  rewrite H200. cbn [Z.eqb Pos.eqb negb].
  unfold mbind at 1. unfold M_bind at 1. unfold mret at 1. unfold M_ret at 1.
  rewrite Hb, Hp, H200. cbn [Z.eqb Pos.eqb negb]. rewrite <- app_assoc. cbn [app].
  destruct (String.eqb Cursor EmptyString); reflexivity.
Qed.

(** X21: when the control plane serves a finite run of pages, each with
    status 200 and all but the last with a non-empty cursor, the loop of
    [fetchSubscriptions] returns, without error, what it had accumulated
    followed by the subscriptions of the pages in the order served; it
    sends one request per page, asks for no token and keeps the client as
    it was. *)
Theorem X21_fetchPages_accumulates
    fuel urlParams page cursor acc (s : State C W) pages w' :
  serves L E helixURL urlParams (client s) cursor (world s) pages w' ->
  (length pages <= fuel)%nat ->
  exists s',
    fetchPages L E helixURL fuel urlParams page cursor acc s
      = Done ((acc ++ concat pages, None), s') /\
    client s' = client s /\ world s' = w' /\
    length (http_requests (trace s')) = (length (http_requests (trace s)) + length pages)%nat /\
    token_generations (trace s') = token_generations (trace s).
Proof.
  intros Hserves. revert fuel page acc s Hserves.
  assert (Hgen : forall (c : Client C) cursor w pages w',
            serves L E helixURL urlParams c cursor w pages w' ->
            forall fuel page acc (s : State C W),
              client s = c -> world s = w -> (length pages <= fuel)%nat ->
              exists s',
                fetchPages L E helixURL fuel urlParams page cursor acc s
                  = Done ((acc ++ concat pages, None), s') /\
                client s' = client s /\ world s' = w' /\
                length (http_requests (trace s'))
                  = (length (http_requests (trace s)) + length pages)%nat /\
                token_generations (trace s') = token_generations (trace s)).
  { clear. intros c cursor w pages w' Hserves.
    induction Hserves as [cursor w res w' body Data Hdo H200 Hb Hp
                         |cursor w res w' body Data Cursor rest w'' Hdo H200 Hb Hp Hne _ IH];
      intros fuel page acc s Hc Hw Hlen; subst c w.
    - destruct fuel as [|fuel]; [simpl in Hlen; lia|].
      rewrite (fetchPages_page fuel urlParams page cursor acc s res w' body Data EmptyString
                 Hdo H200 Hb Hp).
      cbn [String.eqb]. eexists. split; [simpl; rewrite app_nil_r; reflexivity|].
      cbn [client world trace]. repeat split.
      + unfold http_requests. rewrite omap_app, length_app. reflexivity.
      + unfold token_generations. rewrite omap_app. cbn. apply app_nil_r.
    - destruct fuel as [|fuel]; [simpl in Hlen; lia|].
      rewrite (fetchPages_page fuel urlParams page cursor acc s res w' body Data Cursor
                 Hdo H200 Hb Hp).
      apply String.eqb_neq in Hne. rewrite Hne.
      assert (Hlen' : (length rest <= fuel)%nat) by (simpl in Hlen; lia).
      destruct (IH fuel (int_wrap (page + 1)) (acc ++ Data)
                  {| client := client s; world := w';
                     trace := trace s ++
                       [ALog ("Fetching page " +:+ pretty page +:+ " of subscriptions");
                        AHttp (list_request helixURL (client s)
                                 (page_params urlParams cursor))] |}
                  eq_refl eq_refl Hlen') as (s' & Hrun & Hc & Hw & Hn & Hg).
      exists s'. rewrite Hrun. cbn [client world trace] in *.
      split; [simpl; rewrite <- app_assoc; reflexivity|].
      repeat split; [exact Hc|exact Hw| |].
      + rewrite Hn. unfold http_requests. rewrite omap_app, length_app. simpl. lia.
      + rewrite Hg. unfold token_generations. rewrite omap_app. cbn. apply app_nil_r. }
  intros fuel page acc s Hserves Hlen.
  exact (Hgen (client s) cursor (world s) pages w' Hserves fuel page acc s eq_refl eq_refl Hlen).
Qed.

(** X22: when the loop of [fetchSubscriptions] returns an error, it returns
    no subscription at all, whatever it had accumulated from earlier
    pages. *)
Theorem X22_fetchPages_error_drops_pages
    fuel urlParams page cursor acc (s s' : State C W) subscriptions err :
  fetchPages L E helixURL fuel urlParams page cursor acc s
    = Done ((subscriptions, Some err), s') ->
  subscriptions = [].
Proof.
  revert page cursor acc s. induction fuel as [|fuel IH]; intros page cursor acc s;
    [discriminate|].
  cbn [fetchPages]. unfold log, emit. unfold mbind at 1. unfold M_bind at 1.
  cbv zeta. unfold mbind at 1. unfold M_bind at 1.
  rewrite genericRequest_run. cbv zeta. cbn [client world trace].
  destruct (httpClient_Do E _ (world s)) as [[e|res] w]; cbn [fst snd].
  { intros [= <- _ _]. reflexivity. }
  unfold mbind at 1. unfold M_bind at 1.
  assert (Hrest : forall (res : Response) (s1 : State C W),
            match ResponseBody res with
            | inl err => mret ([], Some (InternalError "Could not read response body" (Some err)))
            | inr body =>
                if negb (StatusCode res =? 200)
                then mret ([], Some (UnhandledStatusError (StatusCode res) body))
                else
                  match json_Unmarshal_page L body with
                  | inl err =>
                      mret ([], Some (InternalError "Could not parse response body" (Some err)))
                  | inr (Data, Cursor) =>
                      if String.eqb Cursor EmptyString then mret (acc ++ Data, None)
                      else fetchPages L E helixURL fuel urlParams (int_wrap (page + 1)) Cursor
                             (acc ++ Data)
                  end
            end s1 = Done ((subscriptions, Some err), s') -> subscriptions = []).
  { intros res0 s1. destruct (ResponseBody res0); [intros [= <- _ _]; reflexivity|].
    destruct (negb _); [intros [= <- _ _]; reflexivity|].
    destruct (json_Unmarshal_page L _) as [e|[Data Cursor]]; [intros [= <- _ _]; reflexivity|].
    destruct (String.eqb Cursor EmptyString); [discriminate|]. apply IH. }
  destruct (StatusCode res =? 401).
  - run. destruct (token_endpoint E _ _ w) as [[e|tok] w2]; simpl.
    { intros [= <- _ _]. reflexivity. }
    destruct (httpClient_Do E _ w2) as [[e|res2] w3]; simpl.
    { intros [= <- _ _]. reflexivity. }
    apply Hrest.
  - unfold mret at 1. unfold M_ret at 1. apply Hrest.
Qed.

(** X23: a page that is answered with 401 is requested a second time,
    once, with a newly issued token; when the second answer is 401 again,
    [fetchSubscriptions] returns no subscription and the unhandled-status
    error with status 401 and the body of the second answer. *)
Theorem X23_fetchPages_unauthorized_twice
    fuel urlParams page cursor acc (s : State C W) res1 w1 token w2 res2 w3 body :
  let c := client s in
  let params := page_params urlParams cursor in
  httpClient_Do E (list_request helixURL c params) (world s) = (inr res1, w1) ->
  StatusCode res1 = 401 ->
  token_endpoint E (clientID c) (clientSecret c) w1 = (inr token, w2) ->
  httpClient_Do E (list_request helixURL (set_token c token) params) w2 = (inr res2, w3) ->
  StatusCode res2 = 401 ->
  ResponseBody res2 = inr body ->
  fetchPages L E helixURL (S fuel) urlParams page cursor acc s =
    Done (([], Some (UnhandledStatusError 401 body)),
          {| client := set_token c token; world := w3;
             trace := trace s ++
               [ALog ("Fetching page " +:+ pretty page +:+ " of subscriptions");
                AHttp (list_request helixURL c params);
                ALog "Token invalid, generating a new one";
                AGenerateToken (clientID c) (clientSecret c);
                AHttp (list_request helixURL (set_token c token) params)] |}).
Proof.
  intros c params Hdo1 H401 Htok Hdo2 H401' Hb. subst params.
  cbn [fetchPages]. unfold log, emit. unfold mbind at 1. unfold M_bind at 1.
  cbv zeta. unfold mbind at 1. unfold M_bind at 1.
  rewrite genericRequest_run. cbv zeta. cbn [client world trace].
  unfold list_request in Hdo1, Hdo2. fold c. rewrite Hdo1. cbn [fst snd].
  unfold mbind at 1. unfold M_bind at 1. rewrite H401. cbn [Z.eqb Pos.eqb].
  run. fold c. rewrite Htok. simpl. simpl in Hdo2. rewrite Hdo2. simpl.
  rewrite Hb, H401'. simpl. rewrite <- !app_assoc. reflexivity.
Qed.

Lemma RemoveSubscription_204 id (s : State C W) res w :
  httpClient_Do E (delete_request helixURL (client s) id) (world s) = (inr res, w) ->
  StatusCode res = 204 ->
  RemoveSubscription E helixURL id s =
    Done (None, {| client := client s; world := w;
                   trace := trace s ++ [AHttp (delete_request helixURL (client s) id)] |}).
Proof.
  intros Hdo H204.
  destruct (removeSubscription_run E helixURL id s res w Hdo) as (err & Hrun & Hout & _).
  destruct Hout as (H & _). rewrite (H H204) in Hrun.
  unfold RemoveSubscription. unfold mbind at 1. unfold M_bind at 1. rewrite Hrun. reflexivity.
Qed.

(** A delete call answered with a status other than 204 and 401 fails
    after that one request. *)
Lemma RemoveSubscription_fails id (s : State C W) res w :
  httpClient_Do E (delete_request helixURL (client s) id) (world s) = (inr res, w) ->
  StatusCode res <> 204 -> StatusCode res <> 401 ->
  exists e,
    RemoveSubscription E helixURL id s =
      Done (Some e, {| client := client s; world := w;
                       trace := trace s ++ [AHttp (delete_request helixURL (client s) id)] |}) /\
    remove_outcome res (Some e).
Proof.
  intros Hdo N204 N401.
  destruct (removeSubscription_run E helixURL id s res w Hdo) as (err & Hrun & Hout & Hua).
  destruct err as [e|].
  - exists e. split; [|exact Hout].
    unfold RemoveSubscription. unfold mbind at 1. unfold M_bind at 1. rewrite Hrun.
    rewrite (Hua N401 e eq_refl). reflexivity.
  - exfalso. revert Hrun. unfold removeSubscription, delete_request in *. run.
    simpl in Hdo. rewrite Hdo. simpl.
    destruct (Z.eqb_spec (StatusCode res) 204); [contradiction|].
    destruct (Z.eqb_spec (StatusCode res) 401); [contradiction|].
    destruct (StatusCode res =? 404); [discriminate|].
    destruct (ResponseBody res); discriminate.
Qed.

Lemma removeMatching_skips condition skipped rest (s : State C W) :
  Forall (fun sub => Condition_eq (Condition_ sub) condition = Some false) skipped ->
  removeMatching E helixURL condition (skipped ++ rest) s
    = removeMatching E helixURL condition rest s.
Proof.
  induction 1 as [|sub more Hsub _ IH]; [reflexivity|].
  simpl. rewrite Hsub. exact IH.
Qed.

(** X24: when every delete call is answered with 204 and no comparison of
    conditions panics, the loop of [RemoveSubscriptionByType] returns nil
    after one delete call for each listed subscription whose condition
    equals the given one, in the order of the list, and none for the
    others. *)
Theorem X24_removeMatching_removes_all_matches condition subs (s : State C W) :
  (forall id (c : Client C) w, exists res w',
     httpClient_Do E (delete_request helixURL c id) w = (inr res, w') /\ StatusCode res = 204) ->
  Forall (fun sub => Condition_eq (Condition_ sub) condition <> None) subs ->
  exists s',
    removeMatching E helixURL condition subs s = Done (None, s') /\
    client s' = client s /\
    http_requests (trace s') =
      http_requests (trace s) ++
      map (fun sub => delete_request helixURL (client s) (ID sub))
          (List.filter (matches condition) subs).
Proof.
  intros Hok Hcmp. revert s. induction Hcmp as [|sub rest Hsub _ IH]; intros s.
  - exists s. simpl. rewrite app_nil_r. repeat split.
  - simpl. unfold matches at 1.
    destruct (Condition_eq (Condition_ sub) condition) as [[|]|]; [| |contradiction].
    + run.
      set (s0 := {| client := client s; world := world s;
                    trace := trace s ++ [ALog ("Removing subscription " +:+ ID sub)] |}).
      destruct (Hok (ID sub) (client s0) (world s0)) as (res & w' & Hdo & H204).
      rewrite (RemoveSubscription_204 (ID sub) s0 res w' Hdo H204).
      match goal with
      | |- context [removeMatching E helixURL condition rest ?st] =>
          destruct (IH st) as (s' & Hrun & Hc & Hreq)
      end.
      exists s'. split; [exact Hrun|]. split; [exact Hc|].
      rewrite Hreq. cbn [client trace]. unfold http_requests, s0.
      cbn [client trace]. rewrite !omap_app. cbn. rewrite <- !app_assoc. reflexivity.
    + destruct (IH s) as (s' & Hrun & Hc & Hreq). exists s'. repeat split; assumption.
Qed.

(** X25: the first delete call that fails ends the loop of
    [RemoveSubscriptionByType]: when a matching subscription, reached after
    subscriptions that do not match, gets a status other than 204 and 401,
    the loop returns the error of that status after this one delete call;
    the subscriptions that follow are neither compared nor deleted. *)
Theorem X25_removeMatching_stops_at_first_failure
    condition skipped sub rest (s : State C W) res w :
  Forall (fun sub => Condition_eq (Condition_ sub) condition = Some false) skipped ->
  Condition_eq (Condition_ sub) condition = Some true ->
  httpClient_Do E (delete_request helixURL (client s) (ID sub)) (world s) = (inr res, w) ->
  StatusCode res <> 204 -> StatusCode res <> 401 ->
  exists e s',
    removeMatching E helixURL condition (skipped ++ sub :: rest) s = Done (Some e, s') /\
    remove_outcome res (Some e) /\
    http_requests (trace s') =
      http_requests (trace s) ++ [delete_request helixURL (client s) (ID sub)].
Proof.
  intros Hskip Hmatch Hdo N204 N401.
  rewrite (removeMatching_skips condition skipped (sub :: rest) s Hskip).
  set (s0 := {| client := client s; world := world s;
                trace := trace s ++ [ALog ("Removing subscription " +:+ ID sub)] |}).
  destruct (RemoveSubscription_fails (ID sub) s0 res w Hdo N204 N401) as (e & Hrun & Hout).
  exists e. eexists. split; [|split; [exact Hout|]].
  - exact (removeMatching_aborts E helixURL condition sub rest s _ e Hmatch Hrun).
  - cbn [trace client]. unfold http_requests, s0. cbn [client trace].
    rewrite !omap_app. cbn. rewrite app_nil_r. reflexivity.
Qed.

End ControlPlane.

(** ** Comparing conditions *)

Lemma any_eq_plain (x y : any) :
  plain_reward x -> plain_reward y ->
  exists eq, any_eq x y = Some eq /\ (eq = true <-> x = y).
Proof.
  destruct x, y; simpl; try contradiction; intros _ _;
    try (eexists; split; [reflexivity|]; split; [discriminate|congruence]).
  - exists true. repeat split.
  - exists (String.eqb s s0). split; [reflexivity|].
    destruct (String.eqb_spec s s0); split; congruence.
  - exists (n =? n0). split; [reflexivity|].
    destruct (Z.eqb_spec n n0); split; congruence.
  - exists (Bool.eqb b b0). split; [reflexivity|].
    destruct b, b0; split; simpl; congruence.
Qed.

(** X26: for conditions whose reward id is nil, a string, an integer or a
    boolean, the comparison [sub.Condition == condition] never panics and is
    true exactly when the two records are equal field by field, the empty
    fields included. *)
Theorem X26_Condition_eq_is_structural (a b : Condition) :
  plain_reward (RewardID a) -> plain_reward (RewardID b) ->
  exists eq, Condition_eq a b = Some eq /\ (eq = true <-> a = b).
Proof.
  intros Ha Hb. destruct (any_eq_plain _ _ Ha Hb) as (e & He & Hiff).
  destruct a as [a1 a2 a3 a4 a5 a6 a7 a8 a9 a10 a11 a12].
  destruct b as [b1 b2 b3 b4 b5 b6 b7 b8 b9 b10 b11 b12].
  unfold Condition_eq. cbn [BroadcasterUserID ModeratorUserID UserID FromBroadcasterUserID
    ToBroadcasterUserID RewardID ClientID ExtensionClientID ConduitID OrganizationID
    CategoryID CampaignID] in *.
  destruct (String.eqb_spec a1 b1) as [->|N]; cbn [negb];
    [|exists false; split; [reflexivity|split; [discriminate|congruence]]].
  destruct (String.eqb_spec a2 b2) as [->|N]; cbn [negb];
    [|exists false; split; [reflexivity|split; [discriminate|congruence]]].
  destruct (String.eqb_spec a3 b3) as [->|N]; cbn [negb];
    [|exists false; split; [reflexivity|split; [discriminate|congruence]]].
  destruct (String.eqb_spec a4 b4) as [->|N]; cbn [negb];
    [|exists false; split; [reflexivity|split; [discriminate|congruence]]].
  destruct (String.eqb_spec a5 b5) as [->|N]; cbn [negb];
    [|exists false; split; [reflexivity|split; [discriminate|congruence]]].
  rewrite He. destruct e.
  2:{ exists false. split; [reflexivity|]. split; [discriminate|].
      intros Heq. apply Hiff. congruence. }
  assert (a6 = b6) as -> by (apply Hiff; reflexivity).
  eexists. split; [reflexivity|].
  destruct (String.eqb_spec a7 b7) as [->|N]; [|split; [discriminate|congruence]].
  destruct (String.eqb_spec a8 b8) as [->|N]; [|split; [discriminate|congruence]].
  destruct (String.eqb_spec a9 b9) as [->|N]; [|split; [discriminate|congruence]].
  destruct (String.eqb_spec a10 b10) as [->|N]; [|split; [discriminate|congruence]].
  destruct (String.eqb_spec a11 b11) as [->|N]; [|split; [discriminate|congruence]].
  destruct (String.eqb_spec a12 b12) as [->|N]; [|split; [discriminate|congruence]].
  split; reflexivity.
Qed.

(** *** The further properties on concrete worlds *)

Lemma X15_witness :
  exists err,
    addSubscription Instance.lib Worlds.scripted Instance.helixURL 3
      "stream.online" "1" Runs.condition
      (Worlds.start (Runs.script [Worlds.status 409 "{error:Conflict}"] [] []))
      = Done ((EmptyString, Some err),
              {| client := Callbacks.client0; world := Runs.script [] [] [];
                 trace := [AHttp Runs.create] |}) /\
    err = DuplicateSubscriptionError Runs.condition "stream.online".
Proof.
  destruct (X15_addSubscription_refused Instance.lib Worlds.scripted Instance.helixURL 3
              "stream.online" "1" Runs.condition
              (Worlds.start (Runs.script [Worlds.status 409 "{error:Conflict}"] [] []))
              "{type:stream.online}"
              {| StatusCode := 409; ResponseBody := inr "{error:Conflict}"%string |}
              (Runs.script [] [] []) "{error:Conflict}"
              eq_refl eq_refl eq_refl eq_refl ltac:(vm_compute; intros Heq; discriminate Heq))
    as (err & Hrun & H409 & _).
  exists err. split; [exact Hrun|exact (H409 eq_refl)].
Defined.

Lemma X16_witness :
  addSubscription Instance.lib Worlds.scripted Instance.helixURL 3
    "stream.online" "1" Runs.condition (Worlds.start (Runs.script [] [] []))
    = Done ((EmptyString,
             Some (InternalError "Could not send request" (Some "connection refused"%string))),
            {| client := Callbacks.client0; world := Runs.script [] [] [];
               trace := [AHttp Runs.create] |}).
Proof.
  apply (proj1 (proj2 (proj2 (X16_addSubscription_internal_errors Instance.lib Worlds.scripted
                  Instance.helixURL 3 "stream.online" "1" Runs.condition
                  (Worlds.start (Runs.script [] [] []))))
                  "{type:stream.online}" eq_refl eq_refl) "connection refused"%string).
  reflexivity.
Defined.

Lemma X17_witness :
  exists s',
    addSubscription Instance.lib Worlds.scripted Instance.helixURL 3
      "stream.online" "1" Runs.condition
      (Worlds.start (Runs.script [Runs.accepted] [] [Received "abc123"]))
      = Done (("abc123"%string, None), s') /\
    In (ASelect (Received "abc123")) (trace s').
Proof.
  eexists. split; [vm_compute; reflexivity|].
  refine (proj1 (X17_addSubscription_result Instance.lib Worlds.scripted Instance.helixURL 3
                   "stream.online" "1" Runs.condition
                   (Worlds.start (Runs.script [Runs.accepted] [] [Received "abc123"]))
                   _ "abc123" None _) eq_refl).
  vm_compute. reflexivity.
Defined.

Lemma X18_witness :
  AddSubscription Instance.lib Worlds.scripted Instance.helixURL 3
    "stream.online" "1" Runs.condition
    (Worlds.start (Runs.script [Runs.unauthorized; Runs.accepted] [inr "token-1"%string]
                     [Received "abc123"]))
  = addSubscription Instance.lib Worlds.scripted Instance.helixURL 3
      "stream.online" "1" Runs.condition
      {| client := set_token Callbacks.client0 "token-1";
         world := Runs.script [Runs.accepted] [] [Received "abc123"];
         trace := [AHttp Runs.create; ALog "Token invalid, generating a new one";
                   AGenerateToken "client-id" "client-secret"] |}.
Proof.
  apply (proj1 (X18_AddSubscription_unauthorized Instance.lib Worlds.scripted Instance.helixURL 3
                  "stream.online" "1" Runs.condition
                  (Worlds.start (Runs.script [Runs.unauthorized; Runs.accepted]
                                   [inr "token-1"%string] [Received "abc123"]))
                  {| client := Callbacks.client0;
                     world := Runs.script [Runs.accepted] [inr "token-1"%string]
                                [Received "abc123"];
                     trace := [AHttp Runs.create] |}
                  EmptyString ltac:(vm_compute; reflexivity))
           "token-1"%string (Runs.script [Runs.accepted] [] [Received "abc123"])).
  reflexivity.
Defined.

Lemma X19_witness :
  RemoveSubscription Worlds.scripted Instance.helixURL "sub-1"
    (Worlds.start (Runs.script [Runs.unauthorized] [] []))
  = Done (Some (OtherError "token endpoint unreachable"),
          {| client := Callbacks.client0; world := Runs.script [] [] [];
             trace := [AHttp (delete_request Instance.helixURL Callbacks.client0 "sub-1");
                       ALog "Token invalid, generating a new one";
                       AGenerateToken "client-id" "client-secret"] |}).
Proof.
  apply (proj2 (X19_RemoveSubscription_failures Worlds.scripted Instance.helixURL "sub-1"
                  (Worlds.start (Runs.script [Runs.unauthorized] [] [])))
           {| StatusCode := 401; ResponseBody := inr "{error:Unauthorized}"%string |}
           (Runs.script [] [] []) (OtherError "token endpoint unreachable")
           (Runs.script [] [] [])); reflexivity.
Defined.

Lemma X20_witness :
  AddSubscription Instance.lib Worlds2.lonely Instance.helixURL 3
    "stream.online" "1" Runs.condition
    (Worlds.start (Runs.script [Runs.accepted] [] [Received "other"]))
  = Blocked.
Proof.
  apply (X20_AddSubscription_blocks Instance.lib Worlds2.lonely Instance.helixURL 2
           "stream.online" "1" Runs.condition
           (Worlds.start (Runs.script [Runs.accepted] [] [Received "other"]))
           "{type:stream.online}"
           {| StatusCode := 202; ResponseBody := inr "{data:[{id:abc123}]}"%string |}
           (Runs.script [] [] [Received "other"]) "{data:[{id:abc123}]}"
           (Instance.subscription_of "abc123" "stream.online" "215185844") []
           "other" (Runs.script [] [] []) (Runs.script [] [] []));
    try reflexivity.
  vm_compute. intros Heq. discriminate Heq.
Defined.

Lemma X21_witness :
  exists s',
    fetchPages Instance.lib (Worlds.routed Worlds.three_online) Instance.helixURL 5
      EmptyString 1 EmptyString [] (Worlds.start tt)
      = Done (([Instance.subscription_of "on1" "stream.online" "1";
                Instance.subscription_of "on2" "stream.online" "2";
                Instance.subscription_of "on3" "stream.online" "3"], None), s') /\
    length (http_requests (trace s')) = 2%nat /\
    token_generations (trace s') = [].
Proof.
  destruct (X21_fetchPages_accumulates Instance.lib (Worlds.routed Worlds.three_online)
              Instance.helixURL 5 EmptyString 1 EmptyString [] (Worlds.start tt)
              [ [Instance.subscription_of "on1" "stream.online" "1";
                 Instance.subscription_of "on2" "stream.online" "2"];
                [Instance.subscription_of "on3" "stream.online" "3"] ] tt)
    as (s' & Hrun & _ & _ & Hn & Hg).
  - apply (serves_more Instance.lib (Worlds.routed Worlds.three_online) Instance.helixURL
             EmptyString Callbacks.client0 EmptyString tt
             (Worlds.ok "{data:[{id:on1},{id:on2}],pagination:{cursor:c1}}") tt
             "{data:[{id:on1},{id:on2}],pagination:{cursor:c1}}"
             [Instance.subscription_of "on1" "stream.online" "1";
              Instance.subscription_of "on2" "stream.online" "2"] "c1");
      [reflexivity|reflexivity|reflexivity|reflexivity|discriminate|].
    apply (serves_last Instance.lib (Worlds.routed Worlds.three_online) Instance.helixURL
             EmptyString Callbacks.client0 "c1" tt
             (Worlds.ok "{data:[{id:on3}],pagination:{}}") tt
             "{data:[{id:on3}],pagination:{}}"
             [Instance.subscription_of "on3" "stream.online" "3"]); reflexivity.
  - simpl. lia.
  - exists s'. split; [exact Hrun|]. split; [exact Hn|exact Hg].
Defined.

Lemma X22_witness :
  exists subscriptions err s',
    fetchPages Instance.lib (Worlds.routed Worlds.three_online) Instance.helixURL 5
      "?type=stream.online" 1 EmptyString [] (Worlds.start tt)
      = Done ((subscriptions, Some err), s') /\
    length (http_requests (trace s')) = 2%nat /\
    subscriptions = [].
Proof.
  do 3 eexists. split; [vm_compute; reflexivity|]. split; [reflexivity|].
  refine (X22_fetchPages_error_drops_pages Instance.lib (Worlds.routed Worlds.three_online)
            Instance.helixURL 5 "?type=stream.online" 1 EmptyString [] (Worlds.start tt)
            _ _ _ _).
  vm_compute. reflexivity.
Defined.

Lemma X23_witness :
  fetchPages Instance.lib Worlds.scripted Instance.helixURL 5
    EmptyString 1 EmptyString []
    (Worlds.start (Runs.script [Runs.unauthorized; Runs.unauthorized] [inr "token-1"%string] []))
  = Done (([], Some (UnhandledStatusError 401 "{error:Unauthorized}")),
          {| client := set_token Callbacks.client0 "token-1"; world := Runs.script [] [] [];
             trace :=
               [ALog "Fetching page 1 of subscriptions";
                AHttp (list_request Instance.helixURL Callbacks.client0 EmptyString);
                ALog "Token invalid, generating a new one";
                AGenerateToken "client-id" "client-secret";
                AHttp (list_request Instance.helixURL (set_token Callbacks.client0 "token-1")
                         EmptyString)] |}).
Proof.
  apply (X23_fetchPages_unauthorized_twice Instance.lib Worlds.scripted Instance.helixURL 4
           EmptyString 1 EmptyString []
           (Worlds.start (Runs.script [Runs.unauthorized; Runs.unauthorized]
                            [inr "token-1"%string] []))
           {| StatusCode := 401; ResponseBody := inr "{error:Unauthorized}"%string |}
           (Runs.script [Runs.unauthorized] [inr "token-1"%string] [])
           "token-1" (Runs.script [Runs.unauthorized] [] [])
           {| StatusCode := 401; ResponseBody := inr "{error:Unauthorized}"%string |}
           (Runs.script [] [] []) "{error:Unauthorized}"); reflexivity.
Defined.

Lemma X24_witness :
  exists s',
    removeMatching (Worlds2.always Worlds.no_content) Instance.helixURL Runs.condition Runs.listed
      (Worlds.start tt) = Done (None, s') /\
    map url (http_requests (trace s')) =
      [ "https://api.twitch.tv/helix/eventsub/subscriptions?id=first";
        "https://api.twitch.tv/helix/eventsub/subscriptions?id=off1" ]%string.
Proof.
  destruct (X24_removeMatching_removes_all_matches (Worlds2.always Worlds.no_content)
              Instance.helixURL Runs.condition Runs.listed (Worlds.start tt))
    as (s' & Hrun & _ & Hreq).
  - intros id c w. exists Worlds.no_content, w. split; reflexivity.
  - repeat (apply Forall_cons; split; [vm_compute; intros Heq; discriminate Heq|]).
    apply Forall_nil. exact I.
  - exists s'. split; [exact Hrun|]. rewrite Hreq. vm_compute. reflexivity.
Defined.

Lemma X25_witness :
  exists s',
    removeMatching (Worlds.routed Worlds.one_offline) Instance.helixURL Runs.condition
      ([Instance.subscription_of "second" "stream.online" "1"]
       ++ Instance.subscription_of "first" "stream.online" "215185844"
          :: [Instance.subscription_of "off1" "stream.offline" "215185844"])
      (Worlds.start tt) = Done (Some SubscriptionNotFoundError, s') /\
    map url (http_requests (trace s')) =
      [ "https://api.twitch.tv/helix/eventsub/subscriptions?id=first" ]%string.
Proof.
  destruct (X25_removeMatching_stops_at_first_failure (Worlds.routed Worlds.one_offline)
              Instance.helixURL Runs.condition
              [Instance.subscription_of "second" "stream.online" "1"]
              (Instance.subscription_of "first" "stream.online" "215185844")
              [Instance.subscription_of "off1" "stream.offline" "215185844"]
              (Worlds.start tt) Worlds.not_found tt)
    as (e & s' & Hrun & Hout & Hreq).
  - apply Forall_cons. split; [vm_compute; reflexivity|]. apply Forall_nil. exact I.
  - vm_compute. reflexivity.
  - reflexivity.
  - vm_compute. intros Heq. discriminate Heq.
  - vm_compute. intros Heq. discriminate Heq.
  - exists s'. destruct Hout as (_ & H404 & _).
    injection (H404 eq_refl) as ->. split; [exact Hrun|].
    rewrite Hreq. vm_compute. reflexivity.
Defined.

Lemma X26_witness :
  exists eq,
    Condition_eq (Instance.condition_of "215185844") Worlds2.wrong_reward = Some eq /\
    (eq = true <-> Instance.condition_of "215185844" = Worlds2.wrong_reward).
Proof.
  apply (X26_Condition_eq_is_structural (Instance.condition_of "215185844")
           Worlds2.wrong_reward); exact I.
Defined.
